(** * The compose extension of podman-desktop: lifecycle coordinator

    A shallow embedding of the class [ComposeExtension] of the compose
    extension: the check cycle [runChecks], its notification step
    [notifyOnChecks], [activate], the install flow [installDockerCompose],
    [addComposeWrapper] and [makeExecutable].

    The class talks to five injected collaborators and to the host API.
    Their code is not part of the class, so they are parameters of the
    model, gathered in [Env]: what a probe answers, what the release source
    returns, what the downloader and the wrapper generator do to the disk.
    Every asynchronous call may reject; a rejection is a thrown exception
    of the [async] body, which is what [Throw] stands for. *)

From stdpp Require Import gmap strings list.

(** ** Exceptions and results *)

Inductive Exn :=
| TypeError (msg : string)
| Rejected (reason : string).

Inductive Result (A : Type) :=
| Ok (a : A)
| Throw (e : Exn).
Arguments Ok {A} a.
Arguments Throw {A} e.

(** ** Data *)

(** One entry of the bin folder: the bytes (kept as a string) and the
    permission bits. *)
Record FileNode := { content : string; mode : N }.

Record Disk := {
  files : gmap string FileNode;
  folders : gset string
}.

(** The octal literal [0o755]. *)
Definition mode_0o755 : N := 7 * 64 + 5 * 8 + 5.

Record ContainerProviderConnection := {
  name : string;
  endpoint : string;
  status : string
}.

Record ProviderContainerConnection := {
  providerId : string;
  connection : ContainerProviderConnection
}.

(** A release descriptor as the quick pick shows it. *)
Record Release := { id : string; label : string }.

Record StatusBarItem := {
  text : string;
  iconClass : option string;
  tooltip : option string;
  command : string;
  visible : bool
}.

(** The local object [statusBarChangesToApply] of [runChecks]. *)
Record StatusBarChanges := {
  chIconClass : string;
  chTooltip : string;
  chCommand : string
}.

Inductive Handler := HandlerInstall | HandlerChecks.

(** A call of an [async] method whose promise nobody awaits. *)
Inductive Task := TaskRunChecks (firstCheck : bool).

(** What the extension asks of the outside, in call order. *)
Inductive Event :=
| EvMkdir (p : string)
| EvChmod (p : string) (m : N)
| EvGenerate (c : ProviderContainerConnection) (p : string)
| EvDownload (assetId : N) (p : string)
| EvShowInformationMessage (msg : string).

Inductive FsOp := OpMkdir | OpChmod.

(** ** Collaborators *)

Record Detect := {
  checkForDockerCompose : Result bool;
  checkDefaultSocketIsAlive : Result bool;
  checkStoragePath : Result bool;
  getSocketPath : string
}.

Record ComposeGitHubReleases := {
  grabLatestsReleasesMetadata : Result (list Release);
  getReleaseAssetId : string -> string -> string -> Result N;
  downloadReleaseAsset : N -> string -> Disk -> Result unit * Disk
}.

Record OS := { isWindows : bool; isLinux : bool; isMac : bool }.

Record ComposeWrapperGenerator := {
  generate : ProviderContainerConnection -> string -> Disk -> Result unit * Disk
}.

Record ExtensionContext := { storagePath : string }.

(** The host API ([extensionApi]) and the Node modules the class imports:
    the connections known to the provider registry, the answer of the quick
    pick, [platform()] and [arch()], the separator [path] joins with, and
    the faults the operating system may raise on [mkdir] and [chmod]. *)
Record HostApi := {
  getContainerConnections : list ProviderContainerConnection;
  showQuickPick : list Release -> Result (option Release);
  platform : string;
  arch : string;
  pathSep : string;
  fsFault : FsOp -> string -> option Exn
}.

Record Env := {
  extensionContext : ExtensionContext;
  detect : Detect;
  composeGitHubReleases : ComposeGitHubReleases;
  os : OS;
  podmanComposeGenerator : ComposeWrapperGenerator;
  api : HostApi
}.

(** ** The mutable state *)

Record World := {
  disk : Disk;
  statusBarItem : option StatusBarItem;
  currentInformation : option string;
  registered : list (string * Handler);
  detached : list Task;
  log : list Event
}.

Definition with_disk (d : Disk) (w : World) : World :=
  {| disk := d; statusBarItem := statusBarItem w;
     currentInformation := currentInformation w;
     registered := registered w; detached := detached w; log := log w |}.

Definition with_statusBarItem (s : option StatusBarItem) (w : World) : World :=
  {| disk := disk w; statusBarItem := s;
     currentInformation := currentInformation w;
     registered := registered w; detached := detached w; log := log w |}.

Definition with_currentInformation (i : option string) (w : World) : World :=
  {| disk := disk w; statusBarItem := statusBarItem w;
     currentInformation := i;
     registered := registered w; detached := detached w; log := log w |}.

Definition with_registered (r : list (string * Handler)) (w : World) : World :=
  {| disk := disk w; statusBarItem := statusBarItem w;
     currentInformation := currentInformation w;
     registered := r; detached := detached w; log := log w |}.

Definition with_detached (t : list Task) (w : World) : World :=
  {| disk := disk w; statusBarItem := statusBarItem w;
     currentInformation := currentInformation w;
     registered := registered w; detached := t; log := log w |}.

Definition with_log (l : list Event) (w : World) : World :=
  {| disk := disk w; statusBarItem := statusBarItem w;
     currentInformation := currentInformation w;
     registered := registered w; detached := detached w; log := l |}.

(** ** The monad of [async] bodies: state, and exceptions that keep the
    state reached when they are thrown. *)

Definition M (A : Type) : Type := World -> Result A * World.

Definition ret {A} (a : A) : M A := fun w => (Ok a, w).

Definition throw {A} (e : Exn) : M A := fun w => (Throw e, w).

Definition bind {A B} (m : M A) (k : A -> M B) : M B :=
  fun w =>
    match m w with
    | (Ok a, w') => k a w'
    | (Throw e, w') => (Throw e, w')
    end.

Notation "'let*' x ':=' m 'in' k" := (bind m (fun x => k))
  (at level 10, x name, m at level 100, k at level 200,
   format "'[v' 'let*'  x  ':='  m  'in' '/' k ']'").

(** [await] of a promise the collaborator has already settled. *)
Definition await {A} (r : Result A) : M A := fun w => (r, w).

Definition modify (f : World -> World) : M unit := fun w => (Ok tt, f w).

Definition emit (e : Event) : M unit :=
  modify (fun w => with_log (log w ++ [e]) w).

(** [await] of a collaborator that works on the disk. *)
Definition on_disk (f : Disk -> Result unit * Disk) : M unit :=
  fun w => let '(r, d) := f (disk w) in (r, with_disk d w).

(** ** [node:path] and [node:fs] *)

(** [path.resolve(base, ...segments)] for an absolute, normalised [base]
    and plain segment names, which is how the class calls it. *)
Definition path_resolve (sep base : string) (segments : list string) : string :=
  fold_left (fun acc s => acc +:+ sep +:+ s) segments base.

Definition disk_exists (p : string) (d : Disk) : bool :=
  bool_decide (p ∈ folders d) || bool_decide (is_Some (files d !! p)).

Definition existsSync (p : string) : M bool :=
  fun w => (Ok (disk_exists p (disk w)), w).

Definition disk_mkdir (p : string) (d : Disk) : Disk :=
  {| files := files d; folders := {[ p ]} ∪ folders d |}.

Definition disk_chmod (p : string) (m : N) (d : Disk) : Result unit * Disk :=
  match files d !! p with
  | Some f =>
      (Ok tt, {| files := <[ p := {| content := content f; mode := m |} ]> (files d);
                 folders := folders d |})
  | None =>
      if bool_decide (p ∈ folders d) then (Ok tt, d)
      else (Throw (Rejected "ENOENT"), d)
  end.

(** ** Constants of the class *)

Definition COMPOSE_INSTALL_COMMAND : string := "compose.install".
Definition COMPOSE_CHECKS_COMMAND : string := "compose.checks".
Definition ICON_CHECK : string := "fa fa-check".
Definition ICON_DOWNLOAD : string := "fa fa-download".
Definition ICON_WARNING : string := "fa fa-exclamation-triangle".

(** JavaScript truthiness of a [string | undefined]. *)
Definition truthy (s : option string) : bool :=
  match s with
  | Some v => negb (String.eqb v "")
  | None => false
  end.

(** ** The class *)

Section ComposeExtension.

Variable env : Env.

Definition resolve (base : string) (segments : list string) : string :=
  path_resolve (pathSep (api env)) base segments.

(** [promises.mkdir(p, { recursive: true })] *)
Definition mkdir (p : string) : M unit :=
  let* _ := emit (EvMkdir p) in
  match fsFault (api env) OpMkdir p with
  | Some e => throw e
  | None => modify (fun w => with_disk (disk_mkdir p (disk w)) w)
  end.

(** [promises.chmod(p, m)] *)
Definition chmod (p : string) (m : N) : M unit :=
  let* _ := emit (EvChmod p m) in
  match fsFault (api env) OpChmod p with
  | Some e => throw e
  | None => on_disk (disk_chmod p m)
  end.

Definition showInformationMessage (msg : string) : M unit :=
  emit (EvShowInformationMessage msg).

Definition makeExecutable (filePath : string) : M unit :=
  if isLinux (os env) || isMac (os env) then chmod filePath mode_0o755
  else ret tt.

Definition storageBinFolder : string :=
  resolve (storagePath (extensionContext env)) ["bin"].

Definition wrapperExtension : string :=
  if isWindows (os env) then ".bat" else "".

Definition composeWrapperScript : string :=
  resolve storageBinFolder ["compose" +:+ wrapperExtension].

Definition addComposeWrapper (c : ProviderContainerConnection) : M unit :=
  let* present := existsSync storageBinFolder in
  let* _ := (if negb present then mkdir storageBinFolder else ret tt) in
  let* _ := emit (EvGenerate c composeWrapperScript) in
  let* _ := on_disk (generate (podmanComposeGenerator env) c composeWrapperScript) in
  makeExecutable composeWrapperScript.

Definition showCurrentInformation : M unit :=
  fun w =>
    match currentInformation w with
    | Some info =>
        if truthy (Some info) then showInformationMessage info w else (Ok tt, w)
    | None => (Ok tt, w)
    end.

Definition notifyOnChecks (firstCheck : bool) : M unit :=
  fun w =>
    if truthy (currentInformation w) && negb firstCheck
    then showCurrentInformation w
    else (Ok tt, w).

Definition startedConnections : list ProviderContainerConnection :=
  filter (fun pc => status (connection pc) = "started")
         (getContainerConnections (api env)).

(** The path both tooltips and the advisory name:
    [path.resolve(storagePath, 'bin', 'compose')]. *)
Definition composePath : string :=
  resolve (storagePath (extensionContext env)) ["bin"; "compose"].

Definition tooltipReachable : string :=
  "Compose is installed and DOCKER_HOST is reachable".

Definition tooltipNoEngine : string :=
  "No running container engine. Unable to write a compose wrapper script that will set DOCKER_HOST in that case. Please start a container engine first.".

Definition tooltipNeedsWrapper : string :=
  getSocketPath (detect env) +:+ " is not enabled. Need to use wrapper script".

Definition tooltipUsable : string :=
  "Compose is installed and usable with " +:+ composePath.

Definition advisory : string :=
  "Please add the compose wrapper bin folder to your PATH environment variable. Value is "
  +:+ storageBinFolder +:+ ". The script " +:+ composePath
  +:+ " will setup for you the DOCKER_HOST environment variable.".

Definition applyChanges (ch : StatusBarChanges) : M unit :=
  modify (fun w =>
    match statusBarItem w with
    | Some item =>
        with_statusBarItem
          (Some {| text := text item;
                   iconClass := Some (chIconClass ch);
                   tooltip := Some (chTooltip ch);
                   command := chCommand ch;
                   visible := visible item |}) w
    | None => w
    end).

Definition changes (icon tip cmd : string) : StatusBarChanges :=
  {| chIconClass := icon; chTooltip := tip; chCommand := cmd |}.

Definition runChecks (firstCheck : bool) : M unit :=
  let* _ := modify (with_currentInformation None) in
  let statusBarChangesToApply := changes "" "" COMPOSE_CHECKS_COMMAND in
  let* dockerComposeInstalled := await (checkForDockerCompose (detect env)) in
  let* ch :=
    (if dockerComposeInstalled : bool then
       let* compatibilityModeSetup := await (checkDefaultSocketIsAlive (detect env)) in
       if compatibilityModeSetup : bool then
         ret (changes ICON_CHECK tooltipReachable
                      (chCommand statusBarChangesToApply))
       else
         match startedConnections with
         | [] =>
             ret (changes ICON_WARNING tooltipNoEngine
                          (chCommand statusBarChangesToApply))
         | first :: _ =>
             let* _ := addComposeWrapper first in
             let* extensionBinFolderInPath := await (checkStoragePath (detect env)) in
             if negb extensionBinFolderInPath then
               let* _ := modify (with_currentInformation (Some advisory)) in
               ret (changes ICON_WARNING tooltipNeedsWrapper
                            (chCommand statusBarChangesToApply))
             else
               ret (changes ICON_CHECK tooltipUsable
                            (chCommand statusBarChangesToApply))
         end
     else
       ret (changes ICON_DOWNLOAD "Install Compose" COMPOSE_INSTALL_COMMAND)) in
  let* _ := applyChanges ch in
  notifyOnChecks firstCheck.

(** [this.runChecks(false)] without [await]: the body runs up to its
    first [await] (the advisory is cleared and the first probe is started)
    and the rest is left to the event loop. *)
Definition spawnRunChecks (firstCheck : bool) : M unit :=
  let* _ := modify (with_currentInformation None) in
  modify (fun w => with_detached (detached w ++ [TaskRunChecks firstCheck]) w).

Definition binaryExtension : string :=
  if isWindows (os env) then ".exe" else "".

Definition dockerComposeDownloadLocation : string :=
  resolve storageBinFolder ["docker-compose" +:+ binaryExtension].

(** [lastReleasesMetadata[0]] followed by the reads of [.id] and
    [.label]: on an empty array the index gives [undefined] and the
    property read throws. *)
Definition firstRelease (l : list Release) : M Release :=
  match l !! 0%nat with
  | Some r => ret r
  | None => throw (TypeError "Cannot read properties of undefined (reading 'id')")
  end.

(** The flow from the asset lookup on, for the release that was chosen. *)
Definition installRelease (selectedRelease : Release) : M unit :=
  let* assetId :=
    await (getReleaseAssetId (composeGitHubReleases env)
             (id selectedRelease) (platform (api env)) (arch (api env))) in
  let* present := existsSync storageBinFolder in
  let* _ := (if negb present then mkdir storageBinFolder else ret tt) in
  let* _ := emit (EvDownload assetId dockerComposeDownloadLocation) in
  let* _ :=
    on_disk (downloadReleaseAsset (composeGitHubReleases env) assetId
               dockerComposeDownloadLocation) in
  let* _ := makeExecutable dockerComposeDownloadLocation in
  let* _ := showInformationMessage ("Docker Compose " +:+ label selectedRelease +:+ " installed") in
  spawnRunChecks false.

Definition installDockerCompose : M unit :=
  let* lastReleasesMetadata := await (grabLatestsReleasesMetadata (composeGitHubReleases env)) in
  let* picked := await (showQuickPick (api env) lastReleasesMetadata) in
  let* selectedRelease :=
    match picked with
    | Some r => ret r
    | None => firstRelease lastReleasesMetadata
    end in
  installRelease selectedRelease.

(** The status bar item is created once; the disposables pushed to
    [subscriptions] play no part in what follows and are left out, the two
    registered commands are kept. *)
Definition activate : M unit :=
  let* _ :=
    modify (fun w =>
      match statusBarItem w with
      | Some _ => w
      | None =>
          with_statusBarItem
            (Some {| text := "Compose"; iconClass := None; tooltip := None;
                     command := COMPOSE_CHECKS_COMMAND; visible := true |}) w
      end) in
  let* _ := runChecks true in
  modify (fun w =>
    with_registered (registered w ++
                       [(COMPOSE_INSTALL_COMMAND, HandlerInstall);
                        (COMPOSE_CHECKS_COMMAND, HandlerChecks)]) w).

(** The two callbacks [activate] registers. *)
Definition runHandler (h : Handler) : M unit :=
  match h with
  | HandlerInstall => installDockerCompose
  | HandlerChecks => runChecks false
  end.

(** The event loop finishing the calls nobody awaited; a rejection of
    such a call reaches no caller. *)
Definition settleTask (t : Task) (w : World) : World :=
  match t with
  | TaskRunChecks firstCheck => snd (runChecks firstCheck w)
  end.

Definition settle (w : World) : World :=
  fold_left (fun acc t => settleTask t acc) (detached w) (with_detached [] w).

End ComposeExtension.

(** ** What the log shows *)

(** The strings handed to [showInformationMessage], oldest first. *)
Definition shown (l : list Event) : list string :=
  omap (fun e => match e with EvShowInformationMessage m => Some m | _ => None end) l.

(** The calls of the wrapper generator. *)
Definition generated (l : list Event) : list (ProviderContainerConnection * string) :=
  omap (fun e => match e with EvGenerate c p => Some (c, p) | _ => None end) l.

(** The permission changes asked of the operating system. *)
Definition chmods (l : list Event) : list (string * N) :=
  omap (fun e => match e with EvChmod p m => Some (p, m) | _ => None end) l.

(** The calls of the downloader. *)
Definition downloads (l : list Event) : list (N * string) :=
  omap (fun e => match e with EvDownload a p => Some (a, p) | _ => None end) l.

(** ** The transition rules of the design, section 4.2 *)

Inductive InstallationStatus :=
| NotInstalled
| InstalledAndReachable
| InstalledNeedsPathSetup
| InstalledNeedsWrapper
| NoRunningEngine.

Global Instance InstallationStatus_eq_dec : EqDecision InstallationStatus.
Proof. solve_decision. Defined.

(** Rules 1 to 4, top to bottom, the first that applies wins. *)
Definition transition
  (hasCompose hasReachableDefaultSocket hasStartedConnection hasWrapperOnPath : bool)
  : InstallationStatus :=
  if negb hasCompose then NotInstalled
  else if hasReachableDefaultSocket then InstalledAndReachable
  else if negb hasStartedConnection then NoRunningEngine
  else if hasWrapperOnPath then InstalledAndReachable
  else InstalledNeedsPathSetup.

Inductive Icon := Check | Download | Warning.
Inductive Action := Install | ShowChecks.

Record StatusPresentation := {
  icon : Icon;
  tip : string;
  action : Action
}.

Definition iconClassOf (i : Icon) : string :=
  match i with
  | Check => ICON_CHECK
  | Download => ICON_DOWNLOAD
  | Warning => ICON_WARNING
  end.

Definition commandOf (a : Action) : string :=
  match a with
  | Install => COMPOSE_INSTALL_COMMAND
  | ShowChecks => COMPOSE_CHECKS_COMMAND
  end.

(** The path the design lets the user call the wrapper by: the entry
    [compose] of the folder [bin] under the storage root, written with the
    separator of the host. *)
Definition commandPath (env : Env) : string :=
  storagePath (extensionContext env) +:+ pathSep (api env) +:+ "bin"
  +:+ pathSep (api env) +:+ "compose".

(** The presentation of each status, a table of its own: icon, tooltip
    text and action are written out here and owe nothing to the constants
    of the class. [InstalledAndReachable] has two variants: reached through
    the default socket, or through the wrapper, whose tooltip names the
    wrapper. *)
Definition presentation (env : Env) (s : InstallationStatus) (viaWrapper : bool)
  : StatusPresentation :=
  match s with
  | NotInstalled =>
      {| icon := Download; tip := "Install Compose"; action := Install |}
  | InstalledAndReachable =>
      {| icon := Check;
         tip := if viaWrapper
                then "Compose is installed and usable with " +:+ commandPath env
                else "Compose is installed and DOCKER_HOST is reachable";
         action := ShowChecks |}
  | NoRunningEngine =>
      {| icon := Warning;
         tip := "No running container engine. Unable to write a compose wrapper script that will set DOCKER_HOST in that case. Please start a container engine first.";
         action := ShowChecks |}
  | InstalledNeedsPathSetup | InstalledNeedsWrapper =>
      {| icon := Warning;
         tip := getSocketPath (detect env)
                +:+ " is not enabled. Need to use wrapper script";
         action := ShowChecks |}
  end.

(** [needle] occurs in [hay]: what it is for a text to name a path. *)
Fixpoint occursIn (needle hay : string) : bool :=
  if String.prefix needle hay then true
  else
    match hay with
    | EmptyString => false
    | String _ rest => occursIn needle rest
    end.

(** The status-bar item after a presentation was pushed to it. *)
Definition present (p : StatusPresentation) (item : StatusBarItem) : StatusBarItem :=
  {| text := text item;
     iconClass := Some (iconClassOf (icon p));
     tooltip := Some (tip p);
     command := commandOf (action p);
     visible := visible item |}.

(** Some connection reports the status [started]. *)
Definition hasStartedConnection (env : Env) : bool :=
  existsb (fun pc => String.eqb (status (connection pc)) "started")
          (getContainerConnections (api env)).

(** ** Sample hosts *)

Module Samples.

Definition linux : OS := {| isWindows := false; isLinux := true; isMac := false |}.
Definition windows : OS := {| isWindows := true; isLinux := false; isMac := false |}.

Definition put (p : string) (f : FileNode) (d : Disk) : Disk :=
  {| files := <[ p := f ]> (files d); folders := folders d |}.

(** A generator that writes the endpoint of the connection into the
    script, with mode [0o644]. *)
Definition writingGenerator : ComposeWrapperGenerator :=
  {| generate := fun c p d =>
       (Ok tt, put p {| content := "DOCKER_HOST=" +:+ endpoint (connection c);
                        mode := 420 |} d) |}.

Definition releases : list Release :=
  [ {| id := "v2"; label := "2.0" |}; {| id := "v1"; label := "1.0" |} ].

Definition assetOf (release platform arch : string) : Result N :=
  if String.eqb release "v2" then Ok 22%N
  else if String.eqb release "v1" then Ok 11%N
  else Throw (Rejected "UnsupportedPlatform").

(** A release source whose downloader writes the whole asset. *)
Definition github : ComposeGitHubReleases :=
  {| grabLatestsReleasesMetadata := Ok releases;
     getReleaseAssetId := assetOf;
     downloadReleaseAsset := fun a p d =>
       (Ok tt, put p {| content := "compose-binary"; mode := 420 |} d) |}.

(** A release source whose downloader streams into the path it is given
    and loses the transport after the first bytes. *)
Definition githubDropping : ComposeGitHubReleases :=
  {| grabLatestsReleasesMetadata := Ok releases;
     getReleaseAssetId := assetOf;
     downloadReleaseAsset := fun a p d =>
       (Throw (Rejected "DownloadError"),
        put p {| content := "compo"; mode := 420 |} d) |}.

Definition podman : ProviderContainerConnection :=
  {| providerId := "podman";
     connection := {| name := "podman-machine-default";
                      endpoint := "/run/user/1000/podman/podman.sock";
                      status := "started" |} |}.

Definition stopped : ProviderContainerConnection :=
  {| providerId := "podman";
     connection := {| name := "other"; endpoint := "/tmp/other.sock";
                      status := "stopped" |} |}.

Definition host (sep : string) (cs : list ProviderContainerConnection) : HostApi :=
  {| getContainerConnections := cs;
     showQuickPick := fun _ => Ok None;
     platform := "linux"; arch := "x64"; pathSep := sep;
     fsFault := fun _ _ => None |}.

Definition probes (compose socket onPath : Result bool) : Detect :=
  {| checkForDockerCompose := compose;
     checkDefaultSocketIsAlive := socket;
     checkStoragePath := onPath;
     getSocketPath := "/var/run/docker.sock" |}.

Definition mkEnv (o : OS) (d : Detect) (g : ComposeGitHubReleases)
  (cs : list ProviderContainerConnection) : Env :=
  {| extensionContext :=
       {| storagePath := if isWindows o then "C:\Users\u\compose"
                         else "/home/u/.local/compose" |};
     detect := d; composeGitHubReleases := g; os := o;
     podmanComposeGenerator := writingGenerator;
     api := host (if isWindows o then "\" else "/") cs |}.

(** Compose present, default socket down, one engine started, bin folder
    not on the PATH. *)
Definition needsPath : Env :=
  mkEnv linux (probes (Ok true) (Ok false) (Ok false)) github [stopped; podman].

(** Compose present and the default socket reachable. *)
Definition reachable : Env :=
  mkEnv linux (probes (Ok true) (Ok true) (Ok true)) github [podman].

Definition item0 : StatusBarItem :=
  {| text := "Compose"; iconClass := Some ICON_CHECK;
     tooltip := Some tooltipReachable;
     command := COMPOSE_CHECKS_COMMAND; visible := true |}.

Definition emptyDisk : Disk := {| files := ∅; folders := ∅ |}.

(** A world after activation, status bar created, nothing on disk. *)
Definition w0 : World :=
  {| disk := emptyDisk; statusBarItem := Some item0;
     currentInformation := None; registered := [];
     detached := []; log := [] |}.

End Samples.

(** ** Notions the statements use *)

(** Everything of the world but the disk and the file-system part of the
    log. *)
Definition sameUi (w w' : World) : Prop :=
  statusBarItem w' = statusBarItem w /\
  currentInformation w' = currentInformation w /\
  registered w' = registered w /\
  detached w' = detached w /\
  shown (log w') = shown (log w).

(** A step frames the interface when it leaves [sameUi] whatever its
    outcome. *)
Definition frames {A} (m : M A) : Prop := forall w, sameUi w (snd (m w)).

(** The wrapper step of this cycle, when the cycle gets to it, succeeds. *)
Definition regenerationSucceeds (env : Env) (w : World) : Prop :=
  forall c, head (startedConnections env) = Some c ->
    fst (addComposeWrapper env c (with_currentInformation None w)) = Ok tt.

(** The advisory a cycle ends with, by status. *)
Definition advisoryOf (env : Env) (s : InstallationStatus) : option string :=
  if decide (s = InstalledNeedsPathSetup) then Some (advisory env) else None.

(** What a cycle tells the user, by status and first-check flag. *)
Definition noticeOf (env : Env) (s : InstallationStatus) (firstCheck : bool) : list string :=
  if decide (s = InstalledNeedsPathSetup) then
    (if firstCheck then [] else [advisory env])
  else [].

(** The end of every cycle: push the presentation, then notify. *)
Definition finish (ch : StatusBarChanges) (firstCheck : bool) : M unit :=
  let* _ := applyChanges ch in notifyOnChecks firstCheck.

Definition applied (ch : StatusBarChanges) (item : StatusBarItem) : StatusBarItem :=
  {| text := text item; iconClass := Some (chIconClass ch);
     tooltip := Some (chTooltip ch); command := chCommand ch;
     visible := visible item |}.

Definition noticeFor (info : option string) (firstCheck : bool) : list string :=
  match info with
  | Some s => if truthy info && negb firstCheck then [s] else []
  | None => []
  end.

(** The disk once the bin folder is ensured. *)
Definition ensureBin (env : Env) (d : Disk) : Disk :=
  if disk_exists (storageBinFolder env) d then d
  else disk_mkdir (storageBinFolder env) d.

Definition mkdirLog (env : Env) (d : Disk) : list Event :=
  if disk_exists (storageBinFolder env) d then []
  else [EvMkdir (storageBinFolder env)].

(** The bin folder is there, or the system lets the extension create it. *)
Definition folderReady (env : Env) (d : Disk) : Prop :=
  disk_exists (storageBinFolder env) d = true \/
  fsFault (api env) OpMkdir (storageBinFolder env) = None.

(** The file [p] with its mode set to [0o755]. *)
Definition madeExecutable (p : string) (f : FileNode) (d : Disk) : Disk :=
  {| files := <[ p := {| content := content f; mode := mode_0o755 |} ]> (files d);
     folders := folders d |}.

(** The connection the cycle regenerates the wrapper for, when it gets to
    the regeneration branch. *)
Definition regenerationTarget (env : Env) : option ProviderContainerConnection :=
  match checkForDockerCompose (detect env), checkDefaultSocketIsAlive (detect env) with
  | Ok true, Ok false => head (startedConnections env)
  | _, _ => None
  end.

(** Control reaches the regeneration branch: compose installed, default
    socket unreachable, at least one started connection. *)
Definition reachesRegeneration (env : Env) : bool :=
  match checkForDockerCompose (detect env), checkDefaultSocketIsAlive (detect env) with
  | Ok true, Ok false => hasStartedConnection env
  | _, _ => false
  end.

(** The release the flow installs: the one picked, else the first of the
    list. *)
Definition selected (picked : option Release) (l : list Release) : option Release :=
  match picked with
  | Some r => Some r
  | None => l !! 0%nat
  end.

Definition chmodLog (env : Env) (p : string) : list Event :=
  if isLinux (os env) || isMac (os env) then [EvChmod p mode_0o755] else [].

(** The disk after the permission step on the file [p]. *)
Definition permitted (env : Env) (p : string) (d : Disk) : Disk :=
  if isLinux (os env) || isMac (os env) then
    match files d !! p with
    | Some f => madeExecutable p f d
    | None => d
    end
  else d.

(** Where a permission change is due, the system allows it and the file
    is there. *)
Definition chmodReady (env : Env) (p : string) (d : Disk) : Prop :=
  isLinux (os env) || isMac (os env) = true ->
  fsFault (api env) OpChmod p = None /\ is_Some (files d !! p).

Definition installedNotice (r : Release) : string :=
  "Docker Compose " +:+ label r +:+ " installed".

(** A computation that, when it rejects, has left the interface as it
    was. *)
Definition framesOnThrow {A} (m : M A) : Prop :=
  forall w e w', m w = (Throw e, w') -> sameUi w w'.

(** A Windows host with compose present, the default socket down, an
    engine started and the bin folder on the PATH. *)
Definition windowsOnPath : Env :=
  Samples.mkEnv Samples.windows (Samples.probes (Ok true) (Ok false) (Ok true))
    Samples.github [Samples.podman].

(** A host whose downloader drops the transport after the first bytes. *)
Definition droppingHost : Env :=
  Samples.mkEnv Samples.linux (Samples.probes (Ok false) (Ok false) (Ok false))
    Samples.githubDropping [Samples.podman].

(** A host whose downloader rejects before it writes anything. *)
Definition offlineHost : Env :=
  Samples.mkEnv Samples.linux (Samples.probes (Ok false) (Ok false) (Ok false))
    {| grabLatestsReleasesMetadata := Ok Samples.releases;
       getReleaseAssetId := Samples.assetOf;
       downloadReleaseAsset := fun _ _ d => (Throw (Rejected "DownloadError"), d) |}
    [Samples.podman].

(** The collaborators whose rejection a check cycle can meet. *)
Inductive CheckFailure (env : Env) (w : World) (e : Exn) : Prop :=
| ComposeProbeRejects :
    checkForDockerCompose (detect env) = Throw e -> CheckFailure env w e
| SocketProbeRejects :
    checkForDockerCompose (detect env) = Ok true ->
    checkDefaultSocketIsAlive (detect env) = Throw e -> CheckFailure env w e
| WrapperStepRejects c :
    checkForDockerCompose (detect env) = Ok true ->
    checkDefaultSocketIsAlive (detect env) = Ok false ->
    head (startedConnections env) = Some c ->
    fst (addComposeWrapper env c (with_currentInformation None w)) = Throw e ->
    CheckFailure env w e
| PathProbeRejects c :
    checkForDockerCompose (detect env) = Ok true ->
    checkDefaultSocketIsAlive (detect env) = Ok false ->
    head (startedConnections env) = Some c ->
    fst (addComposeWrapper env c (with_currentInformation None w)) = Ok tt ->
    checkStoragePath (detect env) = Throw e -> CheckFailure env w e.

(** The permission step on the path [p] fails on the disk [d] with [e]:
    the system refuses the change, or there is nothing at [p]. *)
Definition chmodFails (env : Env) (p : string) (d : Disk) (e : Exn) : Prop :=
  isLinux (os env) || isMac (os env) = true /\
  (fsFault (api env) OpChmod p = Some e \/
   (fsFault (api env) OpChmod p = None /\ files d !! p = None /\
    (p ∉ folders d) /\ e = Rejected "ENOENT")).

(** The steps of the install flow that can fail. *)
Inductive Stage :=
| AtListing
| AtPicker
| AtSelection
| AtAssetLookup
| AtFolder
| AtDownload
| AtPermission.

Definition beforeDownload (s : Stage) : bool :=
  match s with
  | AtDownload | AtPermission => false
  | _ => true
  end.

(** The failures the install flow can meet, step by step, each with the
    disk it leaves. *)
Inductive InstallFailure (env : Env) (w : World) : Stage -> Exn -> Disk -> Prop :=
| ListingRejects e :
    grabLatestsReleasesMetadata (composeGitHubReleases env) = Throw e ->
    InstallFailure env w AtListing e (disk w)
| PickerRejects l e :
    grabLatestsReleasesMetadata (composeGitHubReleases env) = Ok l ->
    showQuickPick (api env) l = Throw e ->
    InstallFailure env w AtPicker e (disk w)
| NoRelease :
    grabLatestsReleasesMetadata (composeGitHubReleases env) = Ok [] ->
    showQuickPick (api env) [] = Ok None ->
    InstallFailure env w AtSelection
      (TypeError "Cannot read properties of undefined (reading 'id')") (disk w)
| AssetRejects l picked r e :
    grabLatestsReleasesMetadata (composeGitHubReleases env) = Ok l ->
    showQuickPick (api env) l = Ok picked ->
    selected picked l = Some r ->
    getReleaseAssetId (composeGitHubReleases env) (id r)
      (platform (api env)) (arch (api env)) = Throw e ->
    InstallFailure env w AtAssetLookup e (disk w)
| FolderRejects l picked r a e :
    grabLatestsReleasesMetadata (composeGitHubReleases env) = Ok l ->
    showQuickPick (api env) l = Ok picked ->
    selected picked l = Some r ->
    getReleaseAssetId (composeGitHubReleases env) (id r)
      (platform (api env)) (arch (api env)) = Ok a ->
    disk_exists (storageBinFolder env) (disk w) = false ->
    fsFault (api env) OpMkdir (storageBinFolder env) = Some e ->
    InstallFailure env w AtFolder e (disk w)
| DownloadRejects l picked r a e d :
    grabLatestsReleasesMetadata (composeGitHubReleases env) = Ok l ->
    showQuickPick (api env) l = Ok picked ->
    selected picked l = Some r ->
    getReleaseAssetId (composeGitHubReleases env) (id r)
      (platform (api env)) (arch (api env)) = Ok a ->
    folderReady env (disk w) ->
    downloadReleaseAsset (composeGitHubReleases env) a
      (dockerComposeDownloadLocation env) (ensureBin env (disk w)) = (Throw e, d) ->
    InstallFailure env w AtDownload e d
| PermissionRejects l picked r a e d :
    grabLatestsReleasesMetadata (composeGitHubReleases env) = Ok l ->
    showQuickPick (api env) l = Ok picked ->
    selected picked l = Some r ->
    getReleaseAssetId (composeGitHubReleases env) (id r)
      (platform (api env)) (arch (api env)) = Ok a ->
    folderReady env (disk w) ->
    downloadReleaseAsset (composeGitHubReleases env) a
      (dockerComposeDownloadLocation env) (ensureBin env (disk w)) = (Ok tt, d) ->
    chmodFails env (dockerComposeDownloadLocation env) d e ->
    InstallFailure env w AtPermission e d.

(** A host that refuses to create folders. *)
Definition mkdirRefusingHost : Env :=
  {| extensionContext := extensionContext Samples.needsPath;
     detect := detect Samples.needsPath;
     composeGitHubReleases := Samples.github;
     os := Samples.linux;
     podmanComposeGenerator := Samples.writingGenerator;
     api := {| getContainerConnections := [Samples.podman];
               showQuickPick := fun _ => Ok None;
               platform := "linux"; arch := "x64"; pathSep := "/";
               fsFault := fun op _ =>
                 match op with
                 | OpMkdir => Some (Rejected "EACCES")
                 | OpChmod => None
                 end |} |}.

(** A host whose first probe cannot enumerate the PATH. *)
Definition faultyProbeHost : Env :=
  Samples.mkEnv Samples.linux
    (Samples.probes (Throw (Rejected "EACCES")) (Ok true) (Ok true))
    Samples.github [Samples.podman].

(** A host that refuses permission changes, with a binary from an earlier
    install in place. *)
Definition chmodRefusingHost : Env :=
  {| extensionContext := extensionContext Samples.needsPath;
     detect := detect Samples.needsPath;
     composeGitHubReleases := Samples.github;
     os := Samples.linux;
     podmanComposeGenerator := Samples.writingGenerator;
     api := {| getContainerConnections := [Samples.podman];
               showQuickPick := fun _ => Ok None;
               platform := "linux"; arch := "x64"; pathSep := "/";
               fsFault := fun op _ =>
                 match op with
                 | OpChmod => Some (Rejected "EPERM")
                 | OpMkdir => None
                 end |} |}.

Definition installedWorld : World :=
  with_disk
    (Samples.put "/home/u/.local/compose/bin/docker-compose"
       {| content := "old-binary"; mode := mode_0o755 |}
       (disk_mkdir "/home/u/.local/compose/bin" Samples.emptyDisk))
    Samples.w0.

(** ** Further notions: the log, [activate] *)

(** The folders asked of [mkdir]. *)
Definition mkdirs (l : list Event) : list string :=
  omap (fun e => match e with EvMkdir p => Some p | _ => None end) l.

(** The first statement of [activate]: the status bar item is created
    when there is none. *)
Definition withItem (w : World) : World :=
  match statusBarItem w with
  | Some _ => w
  | None =>
      with_statusBarItem
        (Some {| text := "Compose"; iconClass := None; tooltip := None;
                 command := COMPOSE_CHECKS_COMMAND; visible := true |}) w
  end.

(** A computation that only appends to the log, and only events of one
    kind. *)
Definition appendsOnly (P : Event -> Prop) {A} (m : M A) : Prop :=
  forall w, exists l, log (snd (m w)) = log w ++ l /\ Forall P l.

(** A computation that leaves the status bar and the command registry
    alone. *)
Definition keepsBar {A} (m : M A) : Prop :=
  forall w,
    statusBarItem (snd (m w)) = statusBarItem w /\
    registered (snd (m w)) = registered w.

(** What a check cycle may ask of the outside: the bin folder, the
    wrapper script and its mode, a message. *)
Definition cycleEvent (env : Env) (e : Event) : Prop :=
  match e with
  | EvMkdir p => p = storageBinFolder env
  | EvGenerate _ p => p = composeWrapperScript env
  | EvChmod p m => p = composeWrapperScript env /\ m = mode_0o755
  | EvDownload _ _ => False
  | EvShowInformationMessage _ => True
  end.

(** What the install flow may ask of the outside: the bin folder, the
    binary and its mode, a message. *)
Definition installEvent (env : Env) (e : Event) : Prop :=
  match e with
  | EvMkdir p => p = storageBinFolder env
  | EvDownload _ p => p = dockerComposeDownloadLocation env
  | EvChmod p m => p = dockerComposeDownloadLocation env /\ m = mode_0o755
  | EvGenerate _ _ => False
  | EvShowInformationMessage _ => True
  end.

Definition notMkdir (e : Event) : Prop :=
  match e with EvMkdir _ => False | _ => True end.

(** A world before activation: nothing on disk, no status bar item. *)
Definition freshWorld : World :=
  {| disk := Samples.emptyDisk; statusBarItem := None;
     currentInformation := None; registered := [];
     detached := []; log := [] |}.

(** A host whose user picks the older of the two releases. *)
Definition pickingHost : Env :=
  {| extensionContext := extensionContext Samples.needsPath;
     detect := detect Samples.needsPath;
     composeGitHubReleases := Samples.github;
     os := Samples.linux;
     podmanComposeGenerator := Samples.writingGenerator;
     api := {| getContainerConnections := [Samples.podman];
               showQuickPick := fun _ => Ok (Some {| id := "v1"; label := "1.0" |});
               platform := "linux"; arch := "x64"; pathSep := "/";
               fsFault := fun _ _ => None |} |}.

(** A Windows host whose generator resolves without writing anything. *)
Definition idleGeneratorHost (o : OS) : Env :=
  {| extensionContext := extensionContext Samples.needsPath;
     detect := Samples.probes (Ok true) (Ok false) (Ok true);
     composeGitHubReleases := Samples.github;
     os := o;
     podmanComposeGenerator := {| generate := fun _ _ d => (Ok tt, d) |};
     api := Samples.host "/" [Samples.podman] |}.

(** ** The preferences page *)

Module PreferencesPage.

(** The fields of a recorded configuration property that the page
    reads. *)
Record Property := { parentId : string; scope : option string }.

(** The two variables of the component: both start [undefined]. *)
Record Page := {
  properties : option (list Property);
  defaultPrefPageId : option string
}.

Definition initial : Page := {| properties := None; defaultPrefPageId := None |}.

(** [s.split(sep)] for a separator of one character: the pieces between
    the separators, never an empty array. *)
Fixpoint split (sep : Ascii.ascii) (s : string) : list string :=
  match s with
  | EmptyString => [EmptyString]
  | String c rest =>
      if Ascii.eqb c sep then EmptyString :: split sep rest
      else
        match split sep rest with
        | piece :: pieces => String c piece :: pieces
        | [] => [String c EmptyString]
        end
  end.

(** The character [.], code 46. *)
Definition dot : Ascii.ascii := Ascii.ascii_of_nat 46.

(** [pieces.join(sep)], and whether a string holds a character. *)
Fixpoint join (sep : Ascii.ascii) (pieces : list string) : string :=
  match pieces with
  | [] => EmptyString
  | [piece] => piece
  | piece :: rest => piece +:+ String sep (join sep rest)
  end.

Fixpoint mentions (c : Ascii.ascii) (s : string) : bool :=
  match s with
  | EmptyString => false
  | String c' rest => Ascii.eqb c' c || mentions c rest
  end.

Section Scope.

(** The constant imported from [configuration-registry-constants]. *)
Variable CONFIGURATION_DEFAULT_SCOPE : string.

Definition hasDefaultScope (property : Property) : bool :=
  match scope property with
  | Some s => String.eqb s CONFIGURATION_DEFAULT_SCOPE
  | None => false
  end.

(** [value.filter(...).values().next().value] *)
Definition firstDefault (value : list Property) : option Property :=
  head (List.filter hasDefaultScope value).

(** The callback given to [configurationProperties.subscribe]. *)
Definition onValue (value : list Property) (page : Page) : Page :=
  {| properties := Some value;
     defaultPrefPageId :=
       match firstDefault value with
       | Some iterator => split dot (parentId iterator) !! 0%nat
       | None => defaultPrefPageId page
       end |}.

(** The page identifier a published value gives, when it holds a
    property of the default scope. *)
Definition pageIdOf (value : list Property) : option string :=
  match firstDefault value with
  | Some iterator => split dot (parentId iterator) !! 0%nat
  | None => None
  end.

(** The store publishing one value after the other to a fresh page. *)
Definition afterValues (values : list (list Property)) : Page :=
  fold_left (fun page value => onValue value page) values initial.

End Scope.

(** What the route [/*] renders. *)
Inductive Rendered :=
| PreferencesRendering (key : string) (properties : option (list Property))
| EmptyPlaceholder.

Definition rootRoute (page : Page) : Rendered :=
  match defaultPrefPageId page with
  | Some key => PreferencesRendering key (properties page)
  | None => EmptyPlaceholder
  end.

End PreferencesPage.

(** ** The extension list *)

Module ExtensionList.

Record ExtensionInfo := {
  id : string;
  name : string;
  displayName : string;
  description : string;
  version : string;
  state : string;
  removable : bool
}.

(** The variables of the component the install form works on. *)
Record Form := {
  ociImage : option string;
  installInProgress : bool;
  errorInstall : string;
  logs : list string
}.

Definition initial : Form :=
  {| ociImage := None; installInProgress := false; errorInstall := ""; logs := [] |}.

(** What the installer tells the form while it runs. *)
Inductive Callback :=
| OnData (data : string)
| OnError (error : string).

(** [window.extensionInstallFromImage], as the callbacks it makes before
    its promise settles and how it settles, and [String.prototype.trim]. *)
Record Host := {
  extensionInstallFromImage : string -> list Callback * Result unit;
  trim : string -> string
}.

Definition onCallback (c : Callback) (f : Form) : Form :=
  match c with
  | OnData data =>
      {| ociImage := ociImage f; installInProgress := installInProgress f;
         errorInstall := errorInstall f; logs := logs f ++ [data] |}
  | OnError error =>
      {| ociImage := ociImage f; installInProgress := false;
         errorInstall := error; logs := logs f |}
  end.

Definition finishedLine : string := "☑️ installation finished !".

Definition installExtensionFromImage (h : Host) (f : Form) : Result unit * Form :=
  let started :=
    {| ociImage := ociImage f; installInProgress := true;
       errorInstall := ""; logs := [] |} in
  match ociImage started with
  | None =>
      (Throw (TypeError "Cannot read properties of undefined (reading 'trim')"),
       started)
  | Some image =>
      let trimmed := trim h image in
      let '(callbacks, settled) := extensionInstallFromImage h trimmed in
      let told :=
        fold_left (fun form c => onCallback c form) callbacks
          {| ociImage := Some trimmed; installInProgress := true;
             errorInstall := ""; logs := [] |} in
      match settled with
      | Ok _ =>
          (Ok tt,
           {| ociImage := Some ""; installInProgress := false;
              errorInstall := errorInstall told;
              logs := logs told ++ [finishedLine] |})
      | Throw e => (Throw e, told)
      end
  end.

(** The [disabled] attribute of the install button. *)
Definition installDisabled (f : Form) : bool :=
  match ociImage f with
  | None => true
  | Some image => String.eqb image "" || installInProgress f
  end.

(** The data lines and the last error among the callbacks. *)
Definition dataLines (cs : list Callback) : list string :=
  omap (fun c => match c with OnData d => Some d | OnError _ => None end) cs.

Definition lastError (cs : list Callback) : option string :=
  last (omap (fun c => match c with OnError e => Some e | OnData _ => None end) cs).

(** [class:hidden] of the start and of the stop button. *)
Definition startHidden (extension : ExtensionInfo) : bool :=
  negb (String.eqb (state extension) "stopped").

Definition stopHidden (extension : ExtensionInfo) : bool :=
  negb (String.eqb (state extension) "started").

(** The last cell of a row: the remove button, or a greyed icon with a
    title. *)
Inductive RemoveCell :=
| RemoveButton
| RemoveDisabled (title : string).

Definition removeCell (extension : ExtensionInfo) : RemoveCell :=
  if removable extension then
    if String.eqb (state extension) "stopped" then RemoveButton
    else RemoveDisabled "Running extension cannot be removed."
  else RemoveDisabled "Default extension. Cannot be removed.".

End ExtensionList.

(** ** Paths *)

Lemma resolve_nested env base a b :
  resolve env (resolve env base [a]) [b] = resolve env base [a; b].
Proof. reflexivity. Qed.

Lemma append_empty_r (s : string) : s +:+ "" = s.
Proof.
  induction s as [|c s IH]; [reflexivity |].
  change (String c (s +:+ "") = String c s). by rewrite IH.
Qed.

(** Off Windows the path the tooltip and the advisory name is the path of
    the wrapper script; on Windows the script carries [.bat] in addition. *)
Lemma composePath_is_wrapper env :
  isWindows (os env) = false -> composePath env = composeWrapperScript env.
Proof.
  intros Hw. unfold composePath, composeWrapperScript, storageBinFolder, wrapperExtension.
  rewrite Hw. reflexivity.
Qed.

Lemma append_assoc (a b c : string) : (a +:+ b) +:+ c = a +:+ (b +:+ c).
Proof.
  induction a as [|x a IH]; [reflexivity |].
  change (String x ((a +:+ b) +:+ c) = String x (a +:+ (b +:+ c))). by rewrite IH.
Qed.

Lemma append_inj_l (a b c : string) : a +:+ b = a +:+ c -> b = c.
Proof.
  induction a as [|x a IH]; [done |].
  change (String x (a +:+ b) = String x (a +:+ c) -> b = c). intros [=]; auto.
Qed.

(** The wrapper script and the binary never share a path. *)

(** On Windows the script is the path the tooltip names with [.bat]
    appended. *)
Lemma composeWrapperScript_on_windows env :
  isWindows (os env) = true ->
  composeWrapperScript env = composePath env +:+ ".bat".
Proof.
  intros Hw. unfold composeWrapperScript, composePath, storageBinFolder,
    wrapperExtension, resolve, path_resolve.
  rewrite Hw. simpl. by rewrite !append_assoc.
Qed.

(** The path the class resolves for its tooltips and its advisory is the
    command path of the design. *)
Lemma composePath_commandPath env : composePath env = commandPath env.
Proof.
  unfold composePath, commandPath, resolve, path_resolve. simpl.
  by rewrite !append_assoc.
Qed.

(** ** Frame properties of the steps *)

Lemma sameUi_refl w : sameUi w w.
Proof. by repeat split. Qed.

Lemma sameUi_trans w1 w2 w3 : sameUi w1 w2 -> sameUi w2 w3 -> sameUi w1 w3.
Proof.
  intros (?&?&?&?&?) (?&?&?&?&?). repeat split; congruence.
Qed.

Lemma shown_snoc l e :
  shown (l ++ [e]) =
  shown l ++ match e with EvShowInformationMessage m => [m] | _ => [] end.
Proof. unfold shown. rewrite omap_app. by destruct e. Qed.

Lemma mkdir_sameUi env p w : sameUi w (snd (mkdir env p w)).
Proof.
  unfold mkdir, bind, emit, modify, throw. simpl.
  destruct (fsFault (api env) OpMkdir p); simpl;
    repeat split; simpl; by rewrite ?shown_snoc, ?app_nil_r.
Qed.

Lemma chmod_sameUi env p m w : sameUi w (snd (chmod env p m w)).
Proof.
  unfold chmod, bind, emit, modify, throw, on_disk. simpl.
  destruct (fsFault (api env) OpChmod p); simpl.
  - repeat split; simpl; by rewrite ?shown_snoc, ?app_nil_r.
  - destruct (disk_chmod p m _) as [r d]. simpl.
    repeat split; simpl; by rewrite ?shown_snoc, ?app_nil_r.
Qed.

Lemma makeExecutable_sameUi env p w : sameUi w (snd (makeExecutable env p w)).
Proof.
  unfold makeExecutable. destruct (isLinux (os env) || isMac (os env)).
  - apply chmod_sameUi.
  - apply sameUi_refl.
Qed.

Lemma frames_ret {A} (a : A) : frames (ret a).
Proof. intros w. apply sameUi_refl. Qed.

Lemma frames_await {A} (r : Result A) : frames (await r).
Proof. intros w. apply sameUi_refl. Qed.

Lemma frames_existsSync p : frames (existsSync p).
Proof. intros w. apply sameUi_refl. Qed.

Lemma frames_bind {A B} (m : M A) (k : A -> M B) :
  frames m -> (forall a, frames (k a)) -> frames (bind m k).
Proof.
  intros Hm Hk w. unfold bind. specialize (Hm w).
  destruct (m w) as [[a|e] w1]; simpl in *; [|done].
  eapply sameUi_trans; [exact Hm | apply Hk].
Qed.

Lemma frames_on_disk f : frames (on_disk f).
Proof.
  intros w. unfold on_disk. destruct (f (disk w)) as [r d]. by repeat split.
Qed.

Lemma frames_emit e :
  (forall m, e <> EvShowInformationMessage m) -> frames (emit e).
Proof.
  intros He w. unfold emit, modify. repeat split; simpl.
  rewrite shown_snoc. destruct e; rewrite ?app_nil_r; try done. by destruct (He msg).
Qed.

Lemma frames_mkdir env p : frames (mkdir env p).
Proof. intros w. apply mkdir_sameUi. Qed.

Lemma frames_makeExecutable env p : frames (makeExecutable env p).
Proof. intros w. apply makeExecutable_sameUi. Qed.

Lemma frames_addComposeWrapper env c : frames (addComposeWrapper env c).
Proof.
  unfold addComposeWrapper.
  apply frames_bind; [apply frames_existsSync | intros present].
  apply frames_bind.
  { destruct present; simpl; [apply frames_ret | apply frames_mkdir]. }
  intros _. apply frames_bind; [by apply frames_emit | intros _].
  apply frames_bind; [apply frames_on_disk | intros _].
  apply frames_makeExecutable.
Qed.

(** ** Laws of the monad used below *)

Lemma bind_ok {A B} (m : M A) (k : A -> M B) w a w1 :
  m w = (Ok a, w1) -> bind m k w = k a w1.
Proof. intros H. unfold bind. by rewrite H. Qed.

Lemma bind_throw {A B} (m : M A) (k : A -> M B) w e w1 :
  m w = (Throw e, w1) -> bind m k w = (Throw e, w1).
Proof. intros H. unfold bind. by rewrite H. Qed.

(** ** The check cycle, outcome by outcome *)

Lemma hasStartedConnection_spec env :
  hasStartedConnection env = bool_decide (startedConnections env <> []).
Proof.
  unfold hasStartedConnection, startedConnections.
  induction (getContainerConnections (api env)) as [|pc l IH]; [reflexivity |].
  rewrite filter_cons. simpl.
  destruct (decide (status (connection pc) = "started")) as [Heq|Hne].
  - apply String.eqb_eq in Heq. rewrite Heq. reflexivity.
  - apply String.eqb_neq in Hne. rewrite Hne. exact IH.
Qed.

Lemma advisory_truthy env : truthy (Some (advisory env)) = true.
Proof. reflexivity. Qed.

Lemma finish_spec ch firstCheck w :
  exists w',
    finish ch firstCheck w = (Ok tt, w') /\
    statusBarItem w' = applied ch <$> statusBarItem w /\
    currentInformation w' = currentInformation w /\
    shown (log w') = shown (log w) ++ noticeFor (currentInformation w) firstCheck /\
    registered w' = registered w /\ detached w' = detached w /\ disk w' = disk w /\
    log w' = log w ++
             (EvShowInformationMessage <$> noticeFor (currentInformation w) firstCheck).
Proof.
  unfold finish, applyChanges, notifyOnChecks, showCurrentInformation,
    showInformationMessage, emit, bind, modify, noticeFor.
  destruct w as [d [item|] info reg det lg]; simpl;
    destruct info as [s|]; simpl;
    try (destruct (negb (s =? "")%string); simpl);
    try (destruct firstCheck; simpl);
    eexists; (split; [reflexivity |]); simpl;
    rewrite ?shown_snoc, ?app_nil_r; done.
Qed.

Lemma bind_assoc {A B C} (m : M A) (k : A -> M B) (k' : B -> M C) w :
  bind (bind m k) k' w = bind m (fun a => bind (k a) k') w.
Proof. unfold bind. by destruct (m w) as [[a|e] w1]. Qed.

Ltac ok_step :=
  erewrite bind_ok
    by (first [ reflexivity
              | unfold await;
                match goal with H : _ = Ok _ |- _ => rewrite H; reflexivity end
              | eassumption ]);
  cbv beta iota.

Ltac finish_with ch fc w0 :=
  let w' := fresh "w'" in
  let E := fresh "E" in
  let Hsb := fresh "Hsb" in let Hci := fresh "Hci" in let Hsh := fresh "Hsh" in
  let Hreg := fresh "Hreg" in let Hdet := fresh "Hdet" in let Hdisk := fresh "Hdisk" in
  destruct (finish_spec ch fc w0) as (w' & E & Hsb & Hci & Hsh & Hreg & Hdet & Hdisk);
  exists w'; split; [exact E |].

Ltac close_cycle :=
  unfold transition, advisoryOf, noticeOf, noticeFor, applied, present, changes;
  simpl; rewrite ?app_nil_r;
  repeat match goal with |- context [statusBarItem ?w] => destruct (statusBarItem w) end.

Lemma runChecks_ok env firstCheck w hasCompose hasSocket hasPath :
  checkForDockerCompose (detect env) = Ok hasCompose ->
  checkDefaultSocketIsAlive (detect env) = Ok hasSocket ->
  checkStoragePath (detect env) = Ok hasPath ->
  regenerationSucceeds env w ->
  let s := transition hasCompose hasSocket (hasStartedConnection env) hasPath in
  exists w',
    runChecks env firstCheck w = (Ok tt, w') /\
    statusBarItem w' =
      present (presentation env s (negb hasSocket)) <$> statusBarItem w /\
    currentInformation w' = advisoryOf env s /\
    shown (log w') = shown (log w) ++ noticeOf env s firstCheck /\
    registered w' = registered w /\ detached w' = detached w.
Proof.
  intros Hc Hs Hp Hr s. subst s.
  rewrite hasStartedConnection_spec.
  unfold runChecks. ok_step. ok_step.
  destruct hasCompose.
  2: { ok_step.
       finish_with (changes ICON_DOWNLOAD "Install Compose" COMPOSE_INSTALL_COMMAND)
                   firstCheck (with_currentInformation None w).
       rewrite Hsb, Hci, Hsh, Hreg, Hdet. by close_cycle. }
  rewrite bind_assoc. ok_step.
  destruct hasSocket.
  { ok_step.
    finish_with (changes ICON_CHECK tooltipReachable COMPOSE_CHECKS_COMMAND)
                firstCheck (with_currentInformation None w).
    rewrite Hsb, Hci, Hsh, Hreg, Hdet. by close_cycle. }
  unfold regenerationSucceeds in Hr.
  destruct (startedConnections env) as [|c rest].
  { rewrite bool_decide_eq_false_2 by (intros H; by apply H).
    ok_step.
    finish_with (changes ICON_WARNING tooltipNoEngine COMPOSE_CHECKS_COMMAND)
                firstCheck (with_currentInformation None w).
    rewrite Hsb, Hci, Hsh, Hreg, Hdet. by close_cycle. }
  rewrite bool_decide_eq_true_2 by done.
  specialize (Hr c eq_refl).
  pose proof (frames_addComposeWrapper env c (with_currentInformation None w))
    as (Hsb1 & Hci1 & Hreg1 & Hdet1 & Hsh1).
  destruct (addComposeWrapper env c (with_currentInformation None w))
    as [r w1] eqn:Ew.
  simpl in *. subst r.
  rewrite bind_assoc. ok_step. rewrite bind_assoc. ok_step.
  destruct hasPath.
  - ok_step.
    finish_with (changes ICON_CHECK (tooltipUsable env) COMPOSE_CHECKS_COMMAND)
                firstCheck w1.
    rewrite Hsb, Hci, Hsh, Hreg, Hdet, Hsb1, Hci1, Hsh1, Hreg1, Hdet1.
    unfold tooltipUsable. rewrite composePath_commandPath.
    by close_cycle.
  - cbn [negb]. rewrite bind_assoc. ok_step. ok_step.
    finish_with (changes ICON_WARNING (tooltipNeedsWrapper env) COMPOSE_CHECKS_COMMAND)
                firstCheck (with_currentInformation (Some (advisory env)) w1).
    rewrite Hsb, Hci, Hsh, Hreg, Hdet. simpl.
    rewrite Hsb1, Hsh1, Hreg1, Hdet1.
    destruct firstCheck; by close_cycle.
Qed.

Ltac finish_absurd spec :=
  let w2 := fresh "w2" in
  let E := fresh "E" in
  let H := fresh "H" in
  intros H; destruct spec as (w2 & E & _); exfalso;
  match type of H with
  | _ = ?rhs => cut ((@Ok unit tt, w2) = rhs); [discriminate | rewrite <- E; exact H]
  end.

Ltac throw_step :=
  erewrite bind_throw
    by (first [ reflexivity
              | unfold await;
                match goal with H : _ = Throw _ |- _ => rewrite H; reflexivity end
              | eassumption ]);
  cbv beta iota.

(** A cycle that rejects has cleared the advisory and has touched neither
    the status bar nor the messaging sink. *)
Lemma runChecks_throw env firstCheck w e w' :
  runChecks env firstCheck w = (Throw e, w') ->
  statusBarItem w' = statusBarItem w /\
  currentInformation w' = None /\
  shown (log w') = shown (log w) /\
  registered w' = registered w /\ detached w' = detached w.
Proof.
  unfold runChecks. ok_step.
  destruct (checkForDockerCompose (detect env)) as [[|]|e0] eqn:Hc.
  - ok_step. rewrite bind_assoc.
    destruct (checkDefaultSocketIsAlive (detect env)) as [[|]|e1] eqn:Hs.
    + ok_step. ok_step.
      finish_absurd (finish_spec (changes ICON_CHECK tooltipReachable COMPOSE_CHECKS_COMMAND)
                  firstCheck (with_currentInformation None w)).
    + ok_step.
      destruct (startedConnections env) as [|c rest].
      * ok_step.
        finish_absurd (finish_spec (changes ICON_WARNING tooltipNoEngine COMPOSE_CHECKS_COMMAND)
                    firstCheck (with_currentInformation None w)).
      * pose proof (frames_addComposeWrapper env c (with_currentInformation None w))
          as (Hsb1 & Hci1 & Hreg1 & Hdet1 & Hsh1).
        rewrite bind_assoc.
        destruct (addComposeWrapper env c (with_currentInformation None w))
          as [[[]|e2] w1] eqn:Ew; simpl in *.
        2: { throw_step. intros [= <- <-]. by repeat split. }
        ok_step. rewrite bind_assoc.
        destruct (checkStoragePath (detect env)) as [[|]|e3] eqn:Hp.
        -- ok_step. cbn [negb]. ok_step.
           finish_absurd (finish_spec (changes ICON_CHECK (tooltipUsable env) COMPOSE_CHECKS_COMMAND)
                       firstCheck w1).
        -- ok_step. cbn [negb]. rewrite bind_assoc. ok_step. ok_step.
           finish_absurd (finish_spec
                       (changes ICON_WARNING (tooltipNeedsWrapper env) COMPOSE_CHECKS_COMMAND)
                       firstCheck (with_currentInformation (Some (advisory env)) w1)).
        -- throw_step. intros [= <- <-]. by repeat split.
    + throw_step. intros [= <- <-]. by repeat split.
  - ok_step. ok_step.
    finish_absurd (finish_spec (changes ICON_DOWNLOAD "Install Compose" COMPOSE_INSTALL_COMMAND)
                firstCheck (with_currentInformation None w)).
  - throw_step. intros [= <- <-]. by repeat split.
Qed.

(** ** The bin folder and the permission step *)

Lemma with_same w : with_disk (disk w) (with_log (log w ++ []) w) = w.
Proof. destruct w. unfold with_disk, with_log. simpl. by rewrite app_nil_r. Qed.

Lemma ensureFolder_ready env {B} (k : M B) w :
  folderReady env (disk w) ->
  (let* present := existsSync (storageBinFolder env) in
   let* _ := (if negb present then mkdir env (storageBinFolder env) else ret tt) in
   k) w =
  k (with_disk (ensureBin env (disk w))
          (with_log (log w ++ mkdirLog env (disk w)) w)).
Proof.
  intros Hready. unfold ensureBin, mkdirLog.
  erewrite bind_ok by reflexivity. cbv beta.
  destruct (disk_exists (storageBinFolder env) (disk w)) eqn:Hex; cbn [negb].
  - erewrite bind_ok by reflexivity. by rewrite with_same.
  - destruct Hready as [?|Hfault]; [congruence |].
    unfold mkdir. rewrite Hfault.
    erewrite bind_ok by reflexivity. reflexivity.
Qed.

Lemma ensureFolder_fault env {B} (k : M B) w e :
  disk_exists (storageBinFolder env) (disk w) = false ->
  fsFault (api env) OpMkdir (storageBinFolder env) = Some e ->
  (let* present := existsSync (storageBinFolder env) in
   let* _ := (if negb present then mkdir env (storageBinFolder env) else ret tt) in
   k) w =
  (Throw e, with_log (log w ++ [EvMkdir (storageBinFolder env)]) w).
Proof.
  intros Hex Hfault.
  erewrite bind_ok by reflexivity. cbv beta. rewrite Hex. cbn [negb].
  unfold mkdir. rewrite Hfault. reflexivity.
Qed.

Lemma makeExecutable_file env p f w :
  isLinux (os env) || isMac (os env) = true ->
  fsFault (api env) OpChmod p = None ->
  files (disk w) !! p = Some f ->
  makeExecutable env p w =
  (Ok tt, with_disk (madeExecutable p f (disk w))
            (with_log (log w ++ [EvChmod p mode_0o755]) w)).
Proof.
  intros Hos Hfault Hf. unfold makeExecutable, chmod. rewrite Hos, Hfault.
  erewrite bind_ok by reflexivity. cbv beta.
  unfold on_disk, disk_chmod. simpl. by rewrite Hf.
Qed.

Lemma makeExecutable_fault env p e w :
  isLinux (os env) || isMac (os env) = true ->
  fsFault (api env) OpChmod p = Some e ->
  makeExecutable env p w =
  (Throw e, with_log (log w ++ [EvChmod p mode_0o755]) w).
Proof.
  intros Hos Hfault. unfold makeExecutable, chmod. rewrite Hos, Hfault.
  reflexivity.
Qed.

Lemma makeExecutable_skip env p w :
  isLinux (os env) = false -> isMac (os env) = false ->
  makeExecutable env p w = (Ok tt, w).
Proof. intros Hl Hm. unfold makeExecutable. by rewrite Hl, Hm. Qed.

(** [addComposeWrapper] once the bin folder is ready: the generator runs
    on the wrapper path, and the permission step follows its success. *)
Lemma addComposeWrapper_ready env c w r d1 :
  folderReady env (disk w) ->
  generate (podmanComposeGenerator env) c (composeWrapperScript env)
    (ensureBin env (disk w)) = (r, d1) ->
  let w1 :=
    with_disk d1
      (with_log (log w ++ mkdirLog env (disk w)
                   ++ [EvGenerate c (composeWrapperScript env)]) w) in
  addComposeWrapper env c w =
  match r with
  | Ok _ => makeExecutable env (composeWrapperScript env) w1
  | Throw e => (Throw e, w1)
  end.
Proof.
  intros Hready Hgen. unfold addComposeWrapper.
  rewrite (ensureFolder_ready env _ w Hready).
  erewrite bind_ok by reflexivity. cbv beta.
  unfold bind at 1, on_disk at 1. simpl. rewrite Hgen.
  destruct w as [d sb ci reg det lg]. unfold with_disk, with_log. simpl.
  rewrite <- app_assoc. by destruct r as [[]|e].
Qed.

Lemma noticeFor_first info : noticeFor info true = [].
Proof. destruct info; simpl; [by rewrite andb_false_r | done]. Qed.

Ltac cycle_end spec :=
  let w2 := fresh "w2" in
  let E := fresh "E" in
  let Hd := fresh "Hd" in
  let Hl := fresh "Hl" in
  destruct spec as (w2 & E & _ & _ & _ & _ & _ & Hd & Hl);
  eexists; cbv zeta;
  match goal with
  | |- disk (snd ?run) = _ /\ _ =>
      replace run with (@Ok unit tt, w2) by (symmetry; exact E)
  end;
  cbn [snd]; split; [exact Hd | split; [exact Hl | intros ->; apply noticeFor_first]].

(** ** The disk and the log of a cycle *)

Lemma generated_shows l ms :
  generated (l ++ (EvShowInformationMessage <$> ms)) = generated l.
Proof.
  unfold generated. rewrite omap_app.
  induction ms as [|m ms IH]; simpl in *; [by rewrite app_nil_r | exact IH].
Qed.

Lemma chmods_shows l ms :
  chmods (l ++ (EvShowInformationMessage <$> ms)) = chmods l.
Proof.
  unfold chmods. rewrite omap_app.
  induction ms as [|m ms IH]; simpl in *; [by rewrite app_nil_r | exact IH].
Qed.

Lemma reachesRegeneration_target env :
  reachesRegeneration env = bool_decide (is_Some (regenerationTarget env)).
Proof.
  unfold reachesRegeneration, regenerationTarget.
  rewrite hasStartedConnection_spec.
  destruct (checkForDockerCompose (detect env)) as [[|]|];
    destruct (checkDefaultSocketIsAlive (detect env)) as [[|]|]; try reflexivity;
    try (symmetry; apply bool_decide_eq_false_2; by intros [? ?]).
  destruct (startedConnections env) as [|c rest];
    apply bool_decide_ext; cbn [head]; split.
  - intros H. by destruct H.
  - by intros [? ?].
  - by eauto.
  - done.
Qed.

(** Apart from the wrapper step a cycle leaves the disk alone and asks
    nothing of the file system. *)
Lemma runChecks_fs env firstCheck w :
  exists msgs,
    let w' := snd (runChecks env firstCheck w) in
    let wmid :=
      match regenerationTarget env with
      | Some c => snd (addComposeWrapper env c (with_currentInformation None w))
      | None => w
      end in
    disk w' = disk wmid /\
    log w' = log wmid ++ (EvShowInformationMessage <$> msgs) /\
    (firstCheck = true -> msgs = []).
Proof.
  unfold regenerationTarget, runChecks. ok_step.
  destruct (checkForDockerCompose (detect env)) as [[|]|e0] eqn:Hc.
  - ok_step. rewrite bind_assoc.
    destruct (checkDefaultSocketIsAlive (detect env)) as [[|]|e1] eqn:Hs.
    + ok_step. ok_step.
      cycle_end (finish_spec (changes ICON_CHECK tooltipReachable COMPOSE_CHECKS_COMMAND)
                   firstCheck (with_currentInformation None w)).
    + ok_step.
      destruct (startedConnections env) as [|c rest]; cbn [head].
      * ok_step.
        cycle_end (finish_spec (changes ICON_WARNING tooltipNoEngine COMPOSE_CHECKS_COMMAND)
                     firstCheck (with_currentInformation None w)).
      * rewrite bind_assoc.
        destruct (addComposeWrapper env c (with_currentInformation None w))
          as [[[]|e2] w1] eqn:Ew; cbn [snd].
        2: { throw_step. exists []. simpl. by rewrite app_nil_r. }
        ok_step. rewrite bind_assoc.
        destruct (checkStoragePath (detect env)) as [[|]|e3] eqn:Hp.
        -- ok_step. cbn [negb]. ok_step.
           cycle_end (finish_spec
                        (changes ICON_CHECK (tooltipUsable env) COMPOSE_CHECKS_COMMAND)
                        firstCheck w1).
        -- ok_step. cbn [negb]. rewrite bind_assoc. ok_step. ok_step.
           cycle_end (finish_spec
                        (changes ICON_WARNING (tooltipNeedsWrapper env)
                           COMPOSE_CHECKS_COMMAND)
                        firstCheck (with_currentInformation (Some (advisory env)) w1)).
        -- throw_step. exists []. simpl. by rewrite app_nil_r.
    + throw_step. exists []. simpl. by rewrite app_nil_r.
  - ok_step. ok_step.
    cycle_end (finish_spec (changes ICON_DOWNLOAD "Install Compose" COMPOSE_INSTALL_COMMAND)
                 firstCheck (with_currentInformation None w)).
  - throw_step. exists []. simpl. by rewrite app_nil_r.
Qed.

Lemma shown_shows l ms : shown (l ++ (EvShowInformationMessage <$> ms)) = shown l ++ ms.
Proof.
  unfold shown. rewrite omap_app. f_equal.
  induction ms as [|m ms IH]; simpl in *; [done | by f_equal].
Qed.

(** A first check shows nothing, whatever its outcome. *)
Lemma runChecks_first_silent env w :
  shown (log (snd (runChecks env true w))) = shown (log w).
Proof.
  destruct (runChecks_fs env true w) as (msgs & _ & Hl & Hfirst).
  cbv zeta in Hl. rewrite Hl, (Hfirst eq_refl). simpl. rewrite app_nil_r.
  destruct (regenerationTarget env) as [c|]; [|done].
  by destruct (frames_addComposeWrapper env c (with_currentInformation None w))
    as (_ & _ & _ & _ & Hsh).
Qed.

Lemma activate_silent env w :
  shown (log (snd (activate env w))) = shown (log w).
Proof.
  unfold activate. ok_step.
  match goal with
  | |- context [bind (runChecks env true) _ ?w0] =>
      pose proof (runChecks_first_silent env w0) as Hs;
      destruct (runChecks env true w0) as [[[]|e] w1] eqn:E
  end.
  - ok_step. cbn [snd] in *. unfold modify. simpl. rewrite Hs.
    by destruct (statusBarItem w).
  - throw_step. cbn [snd] in *. rewrite Hs. by destruct (statusBarItem w).
Qed.

(** * The claims *)

Lemma prefix_refl (s : string) : String.prefix s s = true.
Proof.
  induction s as [|c s IH]; [done |]. simpl.
  by destruct (Ascii.ascii_dec c c).
Qed.

Lemma occursIn_unfold (needle hay : string) :
  occursIn needle hay =
  if String.prefix needle hay then true
  else match hay with
       | EmptyString => false
       | String _ rest => occursIn needle rest
       end.
Proof. by destruct hay. Qed.

Lemma occursIn_suffix (needle before : string) :
  occursIn needle (before +:+ needle) = true.
Proof.
  induction before as [|c before IH].
  - change (occursIn needle needle = true).
    by rewrite occursIn_unfold, prefix_refl.
  - change (occursIn needle (String c (before +:+ needle)) = true).
    rewrite occursIn_unfold, IH. by destruct (String.prefix _ _).
Qed.

(** C1, as the code has it. For every combination of the four detection
    inputs a check cycle ends with, on the status bar, the presentation the
    table gives for the status that the transition rules of the design give
    for these inputs, first rule that applies first: download icon,
    "Install Compose" and the install command without compose; check icon
    with a reachable default socket; warning icon and the no-running-engine
    tooltip without a started connection; warning icon with a started
    connection and the bin folder off the PATH; the re-check command in
    every state but the first. With a started connection and the bin folder
    on the PATH the icon is the check and the tooltip names the entry
    [compose] of the bin folder: that is the wrapper script on a host that
    is not Windows; on Windows the script is that path with [.bat] appended,
    which the tooltip does not name. *)
Theorem runChecks_presentation env firstCheck w item hasCompose hasSocket hasPath :
  statusBarItem w = Some item ->
  checkForDockerCompose (detect env) = Ok hasCompose ->
  checkDefaultSocketIsAlive (detect env) = Ok hasSocket ->
  checkStoragePath (detect env) = Ok hasPath ->
  regenerationSucceeds env w ->
  (exists w',
     runChecks env firstCheck w = (Ok tt, w') /\
     statusBarItem w' =
       Some (present
               (presentation env
                  (transition hasCompose hasSocket (hasStartedConnection env) hasPath)
                  (negb hasSocket))
               item)) /\
  (isWindows (os env) = false ->
   commandPath env = composeWrapperScript env /\
   occursIn (composeWrapperScript env)
     (tip (presentation env InstalledAndReachable true)) = true) /\
  (isWindows (os env) = true ->
   composeWrapperScript env = commandPath env +:+ ".bat").
Proof.
  intros Hitem Hc Hs Hp Hr. split; [| split].
  - destruct (runChecks_ok env firstCheck w _ _ _ Hc Hs Hp Hr) as (w' & E & Hsb & _).
    exists w'. split; [exact E |]. by rewrite Hsb, Hitem.
  - intros Hw.
    assert (Hpath : commandPath env = composeWrapperScript env)
      by (by rewrite <- composePath_commandPath, composePath_is_wrapper).
    split; [exact Hpath |].
    cbn [presentation tip]. rewrite Hpath. apply occursIn_suffix.
  - intros Hw. rewrite <- composePath_commandPath.
    by apply composeWrapperScript_on_windows.
Qed.

Lemma runChecks_presentation_witness :
  (exists w',
     runChecks Samples.needsPath false Samples.w0 = (Ok tt, w') /\
     statusBarItem w' =
       Some (present
               (presentation Samples.needsPath
                  (transition true false (hasStartedConnection Samples.needsPath) false)
                  (negb false))
               Samples.item0)) /\
  commandPath Samples.needsPath = composeWrapperScript Samples.needsPath.
Proof.
  assert (Hr : regenerationSucceeds Samples.needsPath Samples.w0).
  { intros c Hc. vm_compute in Hc. injection Hc as <-. vm_compute. reflexivity. }
  destruct (runChecks_presentation Samples.needsPath false Samples.w0 Samples.item0
              true false false eq_refl eq_refl eq_refl eq_refl Hr)
    as (Hrun & Hoff & _).
  split; [exact Hrun |]. by destruct (Hoff eq_refl).
Defined.

(** C1, as stated, fails on Windows. With compose present, the default
    socket down, an engine started and the bin folder on the PATH, the
    cycle writes the wrapper to [compose.bat] and shows the check icon with
    a tooltip that names [compose]: the path of the script occurs nowhere
    in the tooltip, and no file is at the path the tooltip names. *)
Lemma tooltip_misses_script_on_windows :
  fst (runChecks windowsOnPath false Samples.w0) = Ok tt /\
  iconClass <$> statusBarItem (snd (runChecks windowsOnPath false Samples.w0))
    = Some (Some ICON_CHECK) /\
  tooltip <$> statusBarItem (snd (runChecks windowsOnPath false Samples.w0))
    = Some (Some "Compose is installed and usable with C:\Users\u\compose\bin\compose") /\
  composeWrapperScript windowsOnPath = "C:\Users\u\compose\bin\compose.bat" /\
  occursIn (composeWrapperScript windowsOnPath)
    "Compose is installed and usable with C:\Users\u\compose\bin\compose" = false /\
  (content <$> files (disk (snd (runChecks windowsOnPath false Samples.w0)))
                 !! composeWrapperScript windowsOnPath)
    = Some "DOCKER_HOST=/run/user/1000/podman/podman.sock" /\
  files (disk (snd (runChecks windowsOnPath false Samples.w0)))
    !! "C:\Users\u\compose\bin\compose" = None.
Proof. vm_compute. repeat split. Qed.

(** C4. The advisory never reaches the messaging sink in a cycle called
    with the first-check flag, the one [activate] runs, whatever the status
    and the outcome; in a later cycle that ends in [InstalledNeedsPathSetup]
    it is shown exactly once. *)
Theorem advisory_notification env w :
  shown (log (snd (runChecks env true w))) = shown (log w) /\
  shown (log (snd (activate env w))) = shown (log w) /\
  (forall hasCompose hasSocket hasPath,
     checkForDockerCompose (detect env) = Ok hasCompose ->
     checkDefaultSocketIsAlive (detect env) = Ok hasSocket ->
     checkStoragePath (detect env) = Ok hasPath ->
     regenerationSucceeds env w ->
     transition hasCompose hasSocket (hasStartedConnection env) hasPath
       = InstalledNeedsPathSetup ->
     exists w',
       runChecks env false w = (Ok tt, w') /\
       shown (log w') = shown (log w) ++ [advisory env]).
Proof.
  split; [apply runChecks_first_silent |].
  split; [apply activate_silent |].
  intros hasCompose hasSocket hasPath Hc Hs Hp Hr Hst.
  destruct (runChecks_ok env false w _ _ _ Hc Hs Hp Hr)
    as (w' & E & _ & _ & Hsh & _).
  exists w'. split; [exact E |].
  rewrite Hsh, Hst. reflexivity.
Qed.

Lemma advisory_notification_witness :
  exists w',
    runChecks Samples.needsPath false Samples.w0 = (Ok tt, w') /\
    shown (log w') = shown (log Samples.w0) ++ [advisory Samples.needsPath].
Proof.
  destruct (advisory_notification Samples.needsPath Samples.w0) as (_ & _ & H).
  apply (H true false false); try reflexivity.
  intros c Hc. vm_compute in Hc. injection Hc as <-. vm_compute. reflexivity.
Defined.

(** C5. Every cycle clears the advisory before it probes anything: the
    value it starts from plays no part, and a cycle whose first probe rejects
    has already cleared it. At the end the advisory is set exactly when the
    cycle ends in [InstalledNeedsPathSetup]; in any other outcome, a
    rejected cycle included, it is absent. *)
Theorem currentInformation_lifecycle env firstCheck w :
  (forall old,
     runChecks env firstCheck (with_currentInformation old w)
     = runChecks env firstCheck w) /\
  (forall e,
     checkForDockerCompose (detect env) = Throw e ->
     runChecks env firstCheck w = (Throw e, with_currentInformation None w)) /\
  (forall e w',
     runChecks env firstCheck w = (Throw e, w') -> currentInformation w' = None) /\
  (forall hasCompose hasSocket hasPath,
     checkForDockerCompose (detect env) = Ok hasCompose ->
     checkDefaultSocketIsAlive (detect env) = Ok hasSocket ->
     checkStoragePath (detect env) = Ok hasPath ->
     regenerationSucceeds env w ->
     let s := transition hasCompose hasSocket (hasStartedConnection env) hasPath in
     exists w',
       runChecks env firstCheck w = (Ok tt, w') /\
       (is_Some (currentInformation w') <-> s = InstalledNeedsPathSetup) /\
       (s = InstalledNeedsPathSetup -> currentInformation w' = Some (advisory env)) /\
       (s <> InstalledNeedsPathSetup -> currentInformation w' = None)).
Proof.
  split; [| split; [| split]].
  - intros old. reflexivity.
  - intros e He. unfold runChecks. ok_step. throw_step. reflexivity.
  - intros e w' E. by destruct (runChecks_throw env firstCheck w e w' E) as (_ & ? & _).
  - intros hasCompose hasSocket hasPath Hc Hs Hp Hr s.
    destruct (runChecks_ok env firstCheck w _ _ _ Hc Hs Hp Hr)
      as (w' & E & _ & Hci & _).
    exists w'. split; [exact E |]. rewrite Hci. fold s. unfold advisoryOf.
    destruct (decide (s = InstalledNeedsPathSetup)) as [Heq|Hne].
    + split; [split; eauto | split; [done | by intros []]].
    + split; [split; [by intros [? ?] | done] | split; [done | reflexivity]].
Qed.

Lemma currentInformation_lifecycle_witness :
  exists w',
    runChecks Samples.needsPath false Samples.w0 = (Ok tt, w') /\
    currentInformation w' = Some (advisory Samples.needsPath).
Proof.
  destruct (currentInformation_lifecycle Samples.needsPath false Samples.w0)
    as (_ & _ & _ & H).
  destruct (H true false false) as (w' & E & _ & Hset & _); try reflexivity.
  - intros c Hc. vm_compute in Hc. injection Hc as <-. vm_compute. reflexivity.
  - exists w'. split; [exact E | apply Hset; reflexivity].
Defined.

(** ** The wrapper step in detail *)

Lemma generated_app a b : generated (a ++ b) = generated a ++ generated b.
Proof. apply omap_app. Qed.

Lemma generated_mkdirLog env d : generated (mkdirLog env d) = [].
Proof. unfold mkdirLog. by destruct (disk_exists _ _). Qed.

Lemma makeExecutable_generated env p w :
  generated (log (snd (makeExecutable env p w))) = generated (log w).
Proof.
  unfold makeExecutable, chmod, bind, emit, modify, throw, on_disk.
  destruct (isLinux (os env) || isMac (os env)); [|done]. simpl.
  destruct (fsFault (api env) OpChmod p); simpl.
  - by rewrite generated_app, app_nil_r.
  - destruct (disk_chmod p mode_0o755 (disk w)) as [r d]. simpl.
    by rewrite generated_app, app_nil_r.
Qed.

(** The permission step never changes what a file holds. *)
Lemma makeExecutable_content env p w q :
  content <$> files (disk (snd (makeExecutable env p w))) !! q =
  content <$> files (disk w) !! q.
Proof.
  unfold makeExecutable, chmod, bind, emit, modify, throw, on_disk.
  destruct (isLinux (os env) || isMac (os env)); [|done]. simpl.
  destruct (fsFault (api env) OpChmod p); simpl; [done |].
  unfold disk_chmod.
  destruct (files (disk w) !! p) as [f|] eqn:Hf; simpl.
  - destruct (decide (p = q)) as [<-|Hne].
    + by rewrite lookup_insert_eq, Hf.
    + by rewrite lookup_insert_ne.
  - by destruct (bool_decide (p ∈ folders (disk w))).
Qed.

Lemma addComposeWrapper_effect env c w :
  folderReady env (disk w) ->
  let w1 := snd (addComposeWrapper env c w) in
  let d1 := snd (generate (podmanComposeGenerator env) c (composeWrapperScript env)
                   (ensureBin env (disk w))) in
  generated (log w1) = generated (log w) ++ [(c, composeWrapperScript env)] /\
  forall q, content <$> files (disk w1) !! q = content <$> files d1 !! q.
Proof.
  intros Hready.
  destruct (generate (podmanComposeGenerator env) c (composeWrapperScript env)
              (ensureBin env (disk w))) as [r d1] eqn:Hgen.
  rewrite (addComposeWrapper_ready env c w r d1 Hready Hgen). cbn [snd].
  destruct r as [[]|e].
  - split.
    + rewrite makeExecutable_generated. simpl.
      by rewrite !generated_app, generated_mkdirLog.
    + intros q. by rewrite makeExecutable_content.
  - split; [|done]. simpl. by rewrite !generated_app, generated_mkdirLog.
Qed.

Lemma regenerationTarget_head env c :
  regenerationTarget env = Some c -> head (startedConnections env) = Some c.
Proof.
  unfold regenerationTarget.
  destruct (checkForDockerCompose (detect env)) as [[|]|];
    destruct (checkDefaultSocketIsAlive (detect env)) as [[|]|]; done.
Qed.

Lemma reaches_false_target env :
  reachesRegeneration env = false -> regenerationTarget env = None.
Proof.
  rewrite reachesRegeneration_target. intros H.
  apply bool_decide_eq_false_1 in H.
  destruct (regenerationTarget env); [|done]. destruct H; eauto.
Qed.

Lemma reaches_true_target env :
  reachesRegeneration env = true -> exists c, regenerationTarget env = Some c.
Proof.
  rewrite reachesRegeneration_target. intros H.
  by apply bool_decide_eq_true_1 in H.
Qed.

(** C6. A cycle calls the wrapper generator exactly when control reaches
    the regeneration branch. When it does not (compose missing, default
    socket reachable, no started connection, or a probe that rejects) the
    disk is the one the cycle started from, so the wrapper keeps its
    content; when it does, the generator runs once, for the first started
    connection and on the wrapper path, and the script holds what the
    generator left there. *)
Theorem wrapper_written_iff_regeneration env firstCheck w :
  let w' := snd (runChecks env firstCheck w) in
  (reachesRegeneration env = false ->
     disk w' = disk w /\ generated (log w') = generated (log w)) /\
  (reachesRegeneration env = true -> folderReady env (disk w) ->
     exists c,
       head (startedConnections env) = Some c /\
       generated (log w') = generated (log w) ++ [(c, composeWrapperScript env)] /\
       content <$> files (disk w') !! composeWrapperScript env =
       content <$> files (snd (generate (podmanComposeGenerator env) c
                                 (composeWrapperScript env)
                                 (ensureBin env (disk w))))
                   !! composeWrapperScript env) /\
  (folderReady env (disk w) ->
     generated (log w') <> generated (log w) <-> reachesRegeneration env = true).
Proof.
  intros w'. subst w'.
  destruct (runChecks_fs env firstCheck w) as (msgs & Hd & Hl & _).
  cbv zeta in Hd, Hl.
  assert (Hno : reachesRegeneration env = false ->
                disk (snd (runChecks env firstCheck w)) = disk w /\
                generated (log (snd (runChecks env firstCheck w))) = generated (log w)).
  { intros Hr. rewrite (reaches_false_target env Hr) in Hd, Hl.
    split; [exact Hd |]. by rewrite Hl, generated_shows. }
  assert (Hyes : reachesRegeneration env = true -> folderReady env (disk w) ->
     exists c,
       head (startedConnections env) = Some c /\
       generated (log (snd (runChecks env firstCheck w)))
         = generated (log w) ++ [(c, composeWrapperScript env)] /\
       content <$> files (disk (snd (runChecks env firstCheck w)))
                   !! composeWrapperScript env =
       content <$> files (snd (generate (podmanComposeGenerator env) c
                                 (composeWrapperScript env)
                                 (ensureBin env (disk w))))
                   !! composeWrapperScript env).
  { intros Hr Hready. destruct (reaches_true_target env Hr) as (c & Hc).
    rewrite Hc in Hd, Hl. exists c.
    split; [by apply regenerationTarget_head |].
    destruct (addComposeWrapper_effect env c (with_currentInformation None w) Hready)
      as (Hg & Hcontent).
    split.
    - rewrite Hl, generated_shows. exact Hg.
    - rewrite Hd. apply Hcontent. }
  split; [exact Hno |]. split; [exact Hyes |].
  intros Hready. split.
  - intros Hne. destruct (reachesRegeneration env) eqn:Hr; [done |].
    by destruct (Hno eq_refl) as (_ & ?).
  - intros Hr. destruct (Hyes Hr Hready) as (c & _ & Hg & _).
    rewrite Hg. intros Habs.
    apply (f_equal length) in Habs. rewrite length_app in Habs. simpl in Habs. lia.
Qed.

Lemma wrapper_written_iff_regeneration_witness :
  (disk (snd (runChecks Samples.reachable false Samples.w0)) = disk Samples.w0 /\
   generated (log (snd (runChecks Samples.reachable false Samples.w0)))
     = generated (log Samples.w0)) /\
  (exists c,
     head (startedConnections Samples.needsPath) = Some c /\
     generated (log (snd (runChecks Samples.needsPath false Samples.w0)))
       = generated (log Samples.w0) ++ [(c, composeWrapperScript Samples.needsPath)] /\
     content <$> files (disk (snd (runChecks Samples.needsPath false Samples.w0)))
                 !! composeWrapperScript Samples.needsPath =
     content <$> files (snd (generate (podmanComposeGenerator Samples.needsPath) c
                               (composeWrapperScript Samples.needsPath)
                               (ensureBin Samples.needsPath (disk Samples.w0))))
                 !! composeWrapperScript Samples.needsPath).
Proof.
  split.
  - destruct (wrapper_written_iff_regeneration Samples.reachable false Samples.w0)
      as (H & _). apply H. reflexivity.
  - destruct (wrapper_written_iff_regeneration Samples.needsPath false Samples.w0)
      as (_ & H & _). apply H; [reflexivity | right; reflexivity].
Defined.

Lemma chmods_app a b : chmods (a ++ b) = chmods a ++ chmods b.
Proof. apply omap_app. Qed.

Lemma chmods_mkdirLog env d : chmods (mkdirLog env d) = [].
Proof. unfold mkdirLog. by destruct (disk_exists _ _). Qed.

(** C10. On Linux and on Mac a cycle that reaches the regeneration branch
    and whose generator produces the script leaves the wrapper script,
    [compose] in the bin folder ([compose.bat] should the host also answer
    Windows), with mode [0o755]: [addComposeWrapper] ends with the same
    [makeExecutable] step as the install flow. *)
Theorem wrapper_made_executable env firstCheck w c d1 f :
  isLinux (os env) || isMac (os env) = true ->
  reachesRegeneration env = true ->
  head (startedConnections env) = Some c ->
  folderReady env (disk w) ->
  generate (podmanComposeGenerator env) c (composeWrapperScript env)
    (ensureBin env (disk w)) = (Ok tt, d1) ->
  files d1 !! composeWrapperScript env = Some f ->
  fsFault (api env) OpChmod (composeWrapperScript env) = None ->
  let w' := snd (runChecks env firstCheck w) in
  files (disk w') !! composeWrapperScript env
    = Some {| content := content f; mode := mode_0o755 |} /\
  chmods (log w') = chmods (log w) ++ [(composeWrapperScript env, mode_0o755)] /\
  composeWrapperScript env =
    resolve env (storageBinFolder env)
      [if isWindows (os env) then "compose.bat" else "compose"].
Proof.
  intros Hos Hr Hhead Hready Hgen Hf Hfault w'. subst w'.
  destruct (runChecks_fs env firstCheck w) as (msgs & Hd & Hl & _).
  cbv zeta in Hd, Hl.
  destruct (reaches_true_target env Hr) as (c' & Hc').
  pose proof (regenerationTarget_head env c' Hc') as Hhead'.
  assert (c' = c) as -> by congruence.
  rewrite Hc' in Hd, Hl.
  assert (Hrun := addComposeWrapper_ready env c (with_currentInformation None w)
                    (Ok tt) d1 Hready Hgen).
  cbv zeta in Hrun.
  erewrite makeExecutable_file in Hrun by (first [exact Hos | exact Hfault | exact Hf]).
  rewrite Hrun in Hd, Hl. cbn [snd] in Hd, Hl.
  split; [| split].
  - rewrite Hd. simpl. by rewrite lookup_insert_eq.
  - rewrite Hl, chmods_shows. cbn [log with_disk with_log].
    rewrite !chmods_app, chmods_mkdirLog. simpl. by rewrite app_nil_r.
  - unfold composeWrapperScript, wrapperExtension. by destruct (isWindows (os env)).
Qed.

Lemma wrapper_made_executable_witness :
  mode <$> files (disk (snd (runChecks Samples.needsPath false Samples.w0)))
             !! composeWrapperScript Samples.needsPath
  = Some mode_0o755.
Proof.
  assert (Hready : folderReady Samples.needsPath (disk Samples.w0))
    by (right; reflexivity).
  destruct (wrapper_made_executable Samples.needsPath false Samples.w0 Samples.podman
              (Samples.put (composeWrapperScript Samples.needsPath)
                 {| content := "DOCKER_HOST=/run/user/1000/podman/podman.sock";
                    mode := 420 |}
                 (ensureBin Samples.needsPath (disk Samples.w0)))
              {| content := "DOCKER_HOST=/run/user/1000/podman/podman.sock";
                 mode := 420 |}
              eq_refl eq_refl eq_refl Hready eq_refl
              (lookup_insert_eq _ _ _) eq_refl)
    as (H & _).
  cbv zeta in H. by rewrite H.
Defined.

(** ** The install flow, step by step *)

Lemma makeExecutable_ready env p w :
  chmodReady env p (disk w) ->
  makeExecutable env p w =
  (Ok tt, with_disk (permitted env p (disk w))
            (with_log (log w ++ chmodLog env p) w)).
Proof.
  intros Hready. unfold chmodReady, permitted, chmodLog in *.
  destruct (isLinux (os env) || isMac (os env)) eqn:Hos.
  - destruct (Hready eq_refl) as (Hfault & f & Hf). rewrite Hf.
    by apply makeExecutable_file.
  - apply orb_false_iff in Hos as (Hl & Hm).
    rewrite makeExecutable_skip by done. by rewrite with_same.
Qed.

(** The wrapper step succeeds on a host that lets the bin folder be
    made, whose generator succeeds and whose permission step is possible. *)
Lemma regenerationSucceeds_ready env w :
  folderReady env (disk w) ->
  (forall c d, exists d1,
     generate (podmanComposeGenerator env) c (composeWrapperScript env) d = (Ok tt, d1) /\
     chmodReady env (composeWrapperScript env) d1) ->
  regenerationSucceeds env w.
Proof.
  intros Hready Hgen c _.
  destruct (Hgen c (ensureBin env (disk w))) as (d1 & Hg & Hch).
  rewrite (addComposeWrapper_ready env c (with_currentInformation None w)
             (Ok tt) d1 Hready Hg).
  cbv zeta. by rewrite makeExecutable_ready.
Qed.

Lemma install_selected env w l picked r :
  grabLatestsReleasesMetadata (composeGitHubReleases env) = Ok l ->
  showQuickPick (api env) l = Ok picked ->
  selected picked l = Some r ->
  installDockerCompose env w = installRelease env r w.
Proof.
  intros Hl Hp Hsel. unfold installDockerCompose. ok_step. ok_step.
  destruct picked as [r'|]; simpl in Hsel.
  - injection Hsel as ->. by ok_step.
  - unfold firstRelease. rewrite Hsel. by ok_step.
Qed.

Lemma installRelease_download env r w a res d1 :
  getReleaseAssetId (composeGitHubReleases env) (id r)
    (platform (api env)) (arch (api env)) = Ok a ->
  folderReady env (disk w) ->
  downloadReleaseAsset (composeGitHubReleases env) a
    (dockerComposeDownloadLocation env) (ensureBin env (disk w)) = (res, d1) ->
  let w1 :=
    with_disk d1
      (with_log (log w ++ mkdirLog env (disk w)
                   ++ [EvDownload a (dockerComposeDownloadLocation env)]) w) in
  installRelease env r w =
  match res with
  | Ok _ =>
      (let* _ := makeExecutable env (dockerComposeDownloadLocation env) in
       let* _ := showInformationMessage (installedNotice r) in
       spawnRunChecks false) w1
  | Throw e => (Throw e, w1)
  end.
Proof.
  intros Ha Hready Hdl. unfold installRelease. ok_step.
  rewrite (ensureFolder_ready env _ w Hready).
  erewrite bind_ok by reflexivity. cbv beta.
  unfold bind at 1, on_disk at 1. simpl. rewrite Hdl.
  destruct w as [d sb ci reg det lg]. unfold with_disk, with_log. simpl.
  rewrite <- app_assoc. by destruct res as [[]|e].
Qed.

(** A flow whose steps all succeed. *)
Lemma installRelease_ok env r w a d1 :
  getReleaseAssetId (composeGitHubReleases env) (id r)
    (platform (api env)) (arch (api env)) = Ok a ->
  folderReady env (disk w) ->
  downloadReleaseAsset (composeGitHubReleases env) a
    (dockerComposeDownloadLocation env) (ensureBin env (disk w)) = (Ok tt, d1) ->
  chmodReady env (dockerComposeDownloadLocation env) d1 ->
  exists w',
    installRelease env r w = (Ok tt, w') /\
    disk w' = permitted env (dockerComposeDownloadLocation env) d1 /\
    log w' = log w ++ mkdirLog env (disk w)
               ++ [EvDownload a (dockerComposeDownloadLocation env)]
               ++ chmodLog env (dockerComposeDownloadLocation env)
               ++ [EvShowInformationMessage (installedNotice r)] /\
    detached w' = detached w ++ [TaskRunChecks false] /\
    currentInformation w' = None /\
    statusBarItem w' = statusBarItem w.
Proof.
  intros Ha Hready Hdl Hch.
  rewrite (installRelease_download env r w a (Ok tt) d1 Ha Hready Hdl).
  cbv zeta.
  erewrite bind_ok by (apply makeExecutable_ready; exact Hch). cbv beta.
  eexists. split; [reflexivity |]. simpl.
  repeat split. by rewrite <- !app_assoc.
Qed.

Lemma downloads_app a b : downloads (a ++ b) = downloads a ++ downloads b.
Proof. apply omap_app. Qed.

Lemma shown_app a b : shown (a ++ b) = shown a ++ shown b.
Proof. apply omap_app. Qed.

Lemma quiet_mkdirLog env d :
  downloads (mkdirLog env d) = [] /\ shown (mkdirLog env d) = [].
Proof. unfold mkdirLog. by destruct (disk_exists _ _). Qed.

Lemma quiet_chmodLog env p :
  downloads (chmodLog env p) = [] /\ shown (chmodLog env p) = [] /\
  (isLinux (os env) = false -> isMac (os env) = false -> chmods (chmodLog env p) = []).
Proof.
  unfold chmodLog.
  destruct (isLinux (os env)), (isMac (os env)); simpl; repeat split; done.
Qed.

(** C7. When the user picks nothing the flow installs the release at
    index 0 of the list the release source returned: the asset is looked up
    for that release's id with the platform and the architecture of the
    host, that asset is the one downloaded, and the success message carries
    that release's label. *)
Theorem install_defaults_to_first env w r rest :
  grabLatestsReleasesMetadata (composeGitHubReleases env) = Ok (r :: rest) ->
  showQuickPick (api env) (r :: rest) = Ok None ->
  installDockerCompose env w = installRelease env r w /\
  (forall e,
     getReleaseAssetId (composeGitHubReleases env) (id r)
       (platform (api env)) (arch (api env)) = Throw e ->
     installDockerCompose env w = (Throw e, w)) /\
  (forall a d1,
     getReleaseAssetId (composeGitHubReleases env) (id r)
       (platform (api env)) (arch (api env)) = Ok a ->
     folderReady env (disk w) ->
     downloadReleaseAsset (composeGitHubReleases env) a
       (dockerComposeDownloadLocation env) (ensureBin env (disk w)) = (Ok tt, d1) ->
     chmodReady env (dockerComposeDownloadLocation env) d1 ->
     exists w',
       installDockerCompose env w = (Ok tt, w') /\
       downloads (log w')
         = downloads (log w) ++ [(a, dockerComposeDownloadLocation env)] /\
       shown (log w')
         = shown (log w) ++ ["Docker Compose " +:+ label r +:+ " installed"]).
Proof.
  intros Hl Hp.
  assert (Hsel : installDockerCompose env w = installRelease env r w)
    by (by apply (install_selected env w (r :: rest) None r)).
  split; [exact Hsel |]. split.
  - intros e He. rewrite Hsel. unfold installRelease. by throw_step.
  - intros a d1 Ha Hready Hdl Hch. rewrite Hsel.
    destruct (installRelease_ok env r w a d1 Ha Hready Hdl Hch)
      as (w' & E & _ & Hlog & _).
    exists w'. split; [exact E |]. rewrite Hlog.
    destruct (quiet_mkdirLog env (disk w)) as (Hd1 & Hs1).
    destruct (quiet_chmodLog env (dockerComposeDownloadLocation env))
      as (Hd2 & Hs2 & _).
    split.
    + rewrite !downloads_app, Hd1, Hd2. reflexivity.
    + rewrite !shown_app, Hs1, Hs2. reflexivity.
Qed.

Lemma install_defaults_to_first_witness :
  exists w',
    installDockerCompose Samples.needsPath Samples.w0 = (Ok tt, w') /\
    downloads (log w')
      = downloads (log Samples.w0)
        ++ [(22%N, dockerComposeDownloadLocation Samples.needsPath)] /\
    shown (log w') = shown (log Samples.w0) ++ ["Docker Compose 2.0 installed"].
Proof.
  destruct (install_defaults_to_first Samples.needsPath Samples.w0
              {| id := "v2"; label := "2.0" |} [{| id := "v1"; label := "1.0" |}]
              eq_refl eq_refl) as (_ & _ & H).
  apply (H 22%N (Samples.put (dockerComposeDownloadLocation Samples.needsPath)
                   {| content := "compose-binary"; mode := 420 |}
                   (ensureBin Samples.needsPath (disk Samples.w0)))).
  - reflexivity.
  - right; reflexivity.
  - reflexivity.
  - intros _. split; [reflexivity |]. eexists. apply lookup_insert_eq.
Defined.

(** C8. After a flow in which listing, asset lookup and download succeed
    the binary is at [docker-compose.exe] in the bin folder when the host
    answers Windows and at [docker-compose] otherwise; on Linux and Mac its
    mode is [0o755]; on a host that is neither, as Windows is, no
    permission change is asked and the file is as the downloader left it. *)
Theorem install_binary_executable env w l picked r a d1 f :
  grabLatestsReleasesMetadata (composeGitHubReleases env) = Ok l ->
  showQuickPick (api env) l = Ok picked ->
  selected picked l = Some r ->
  getReleaseAssetId (composeGitHubReleases env) (id r)
    (platform (api env)) (arch (api env)) = Ok a ->
  folderReady env (disk w) ->
  downloadReleaseAsset (composeGitHubReleases env) a
    (dockerComposeDownloadLocation env) (ensureBin env (disk w)) = (Ok tt, d1) ->
  files d1 !! dockerComposeDownloadLocation env = Some f ->
  (isLinux (os env) || isMac (os env) = true ->
   fsFault (api env) OpChmod (dockerComposeDownloadLocation env) = None) ->
  exists w',
    installDockerCompose env w = (Ok tt, w') /\
    dockerComposeDownloadLocation env =
      resolve env (storageBinFolder env)
        [if isWindows (os env) then "docker-compose.exe" else "docker-compose"] /\
    is_Some (files (disk w') !! dockerComposeDownloadLocation env) /\
    (isLinux (os env) || isMac (os env) = true ->
     files (disk w') !! dockerComposeDownloadLocation env
       = Some {| content := content f; mode := mode_0o755 |}) /\
    (isLinux (os env) = false -> isMac (os env) = false ->
     disk w' = d1 /\ chmods (log w') = chmods (log w)).
Proof.
  intros Hl Hp Hsel Ha Hready Hdl Hf Hfault.
  assert (Hch : chmodReady env (dockerComposeDownloadLocation env) d1)
    by (intros Hos; split; [by apply Hfault | by eexists]).
  rewrite (install_selected env w l picked r Hl Hp Hsel).
  destruct (installRelease_ok env r w a d1 Ha Hready Hdl Hch)
    as (w' & E & Hdisk & Hlog & _).
  exists w'. split; [exact E |]. split.
  { unfold dockerComposeDownloadLocation, binaryExtension.
    by destruct (isWindows (os env)). }
  rewrite Hdisk, Hlog. unfold permitted, chmodLog. rewrite Hf.
  destruct (isLinux (os env) || isMac (os env)) eqn:Hos.
  - split; [| split].
    + simpl. rewrite lookup_insert_eq. by eexists.
    + intros _. simpl. by rewrite lookup_insert_eq.
    + intros Hl' Hm'. rewrite Hl', Hm' in Hos. discriminate.
  - split; [by eexists | split; [done |]].
    intros _ _. split; [done |].
    rewrite !chmods_app, chmods_mkdirLog. simpl. by rewrite app_nil_r.
Qed.

Lemma install_binary_executable_witness :
  exists w',
    installDockerCompose Samples.needsPath Samples.w0 = (Ok tt, w') /\
    files (disk w') !! dockerComposeDownloadLocation Samples.needsPath
      = Some {| content := "compose-binary"; mode := mode_0o755 |}.
Proof.
  assert (Hready : folderReady Samples.needsPath (disk Samples.w0))
    by (right; reflexivity).
  destruct (install_binary_executable Samples.needsPath Samples.w0
              Samples.releases None {| id := "v2"; label := "2.0" |} 22%N
              (Samples.put (dockerComposeDownloadLocation Samples.needsPath)
                 {| content := "compose-binary"; mode := 420 |}
                 (ensureBin Samples.needsPath (disk Samples.w0)))
              {| content := "compose-binary"; mode := 420 |}
              eq_refl eq_refl eq_refl eq_refl Hready eq_refl
              (lookup_insert_eq _ _ _) (fun _ => eq_refl))
    as (w' & E & _ & _ & Hmode & _).
  exists w'. split; [exact E | apply Hmode; reflexivity].
Defined.

(** On Windows the flow asks for no permission change. *)
Example install_on_windows_no_chmod :
  let env := Samples.mkEnv Samples.windows
               (Samples.probes (Ok true) (Ok false) (Ok false))
               Samples.github [Samples.podman] in
  let w' := snd (installDockerCompose env Samples.w0) in
  fst (installDockerCompose env Samples.w0) = Ok tt /\
  dockerComposeDownloadLocation env = "C:\Users\u\compose\bin\docker-compose.exe" /\
  files (disk w') !! dockerComposeDownloadLocation env
    = Some {| content := "compose-binary"; mode := 420 |} /\
  chmods (log w') = [].
Proof. vm_compute. repeat split. Qed.

(** C9. The flow has no guard for an empty release list: with nothing
    picked, index 0 of an empty list is [undefined] and reading its [id]
    throws, before anything else is done; the selection step throws only
    then: with at least one release the flow goes on to that release. *)
Theorem install_needs_release env w l :
  grabLatestsReleasesMetadata (composeGitHubReleases env) = Ok l ->
  showQuickPick (api env) l = Ok None ->
  (l = [] ->
   installDockerCompose env w
   = (Throw (TypeError "Cannot read properties of undefined (reading 'id')"), w)) /\
  (forall r rest, l = r :: rest ->
   firstRelease l w = (Ok r, w) /\
   installDockerCompose env w = installRelease env r w) /\
  ((exists e, fst (firstRelease l w) = Throw e) <-> l = []).
Proof.
  intros Hl Hp. split; [| split].
  - intros ->. unfold installDockerCompose. ok_step. ok_step.
    unfold firstRelease. simpl. by throw_step.
  - intros r rest ->. split; [reflexivity |].
    by apply (install_selected env w (r :: rest) None r).
  - destruct l as [|r rest]; simpl; split; try done.
    + by eexists.
    + by intros [e ?].
Qed.

Lemma install_needs_release_witness :
  let env := Samples.mkEnv Samples.linux
               (Samples.probes (Ok false) (Ok false) (Ok false))
               {| grabLatestsReleasesMetadata := Ok [];
                  getReleaseAssetId := Samples.assetOf;
                  downloadReleaseAsset := fun _ _ d => (Ok tt, d) |}
               [Samples.podman] in
  installDockerCompose env Samples.w0
  = (Throw (TypeError "Cannot read properties of undefined (reading 'id')"),
     Samples.w0).
Proof.
  intros env.
  destruct (install_needs_release env Samples.w0 [] eq_refl eq_refl) as (H & _).
  apply H. reflexivity.
Defined.

(** ** Failures *)

Lemma framesOnThrow_frames {A} (m : M A) : frames m -> framesOnThrow m.
Proof. intros Hm w e w' E. specialize (Hm w). by rewrite E in Hm. Qed.

Lemma framesOnThrow_bind {A B} (m : M A) (k : A -> M B) :
  frames m -> (forall a, framesOnThrow (k a)) -> framesOnThrow (bind m k).
Proof.
  intros Hm Hk w e w'. unfold bind. specialize (Hm w).
  destruct (m w) as [[a|e0] w1]; simpl in Hm.
  - intros E. eapply sameUi_trans; [exact Hm | by eapply Hk].
  - by intros [= <- <-].
Qed.

Lemma framesOnThrow_never {A} (m : M A) :
  (forall w, exists a w', m w = (Ok a, w')) -> framesOnThrow m.
Proof. intros Hm w e w' E. destruct (Hm w) as (a & w1 & E1). congruence. Qed.

Lemma frames_throw {A} (e : Exn) : frames (@throw A e).
Proof. intros w. apply sameUi_refl. Qed.

Lemma installRelease_framesOnThrow env r : framesOnThrow (installRelease env r).
Proof.
  unfold installRelease.
  apply framesOnThrow_bind; [apply frames_await | intros a].
  apply framesOnThrow_bind; [apply frames_existsSync | intros present].
  apply framesOnThrow_bind.
  { destruct present; simpl; [apply frames_ret | apply frames_mkdir]. }
  intros _. apply framesOnThrow_bind; [by apply frames_emit | intros _].
  apply framesOnThrow_bind; [apply frames_on_disk | intros _].
  apply framesOnThrow_bind; [apply frames_makeExecutable | intros _].
  apply framesOnThrow_never. intros w. by eexists _, _.
Qed.

Lemma installDockerCompose_framesOnThrow env : framesOnThrow (installDockerCompose env).
Proof.
  unfold installDockerCompose.
  apply framesOnThrow_bind; [apply frames_await | intros l].
  apply framesOnThrow_bind; [apply frames_await | intros picked].
  apply framesOnThrow_bind; [| intros r; apply installRelease_framesOnThrow].
  destruct picked; [apply frames_ret |].
  unfold firstRelease. destruct (l !! 0%nat); [apply frames_ret | apply frames_throw].
Qed.

Lemma files_ensureBin env d : files (ensureBin env d) = files d.
Proof. unfold ensureBin. by destruct (disk_exists _ _). Qed.

(** C2, as the code has it. When the downloader rejects, the flow rejects
    with the same failure and does nothing more: no clean-up, no permission
    change, no message, no re-check. The flow hands the final destination
    itself to the downloader and has no temporary path and no rename of its
    own, so the disk it leaves is the disk the downloader left: the
    destination holds afterwards what the downloader put or left there, and
    is as before the flow when the downloader did not touch it. *)
Theorem install_download_failure env w l picked r a e d1 :
  grabLatestsReleasesMetadata (composeGitHubReleases env) = Ok l ->
  showQuickPick (api env) l = Ok picked ->
  selected picked l = Some r ->
  getReleaseAssetId (composeGitHubReleases env) (id r)
    (platform (api env)) (arch (api env)) = Ok a ->
  folderReady env (disk w) ->
  downloadReleaseAsset (composeGitHubReleases env) a
    (dockerComposeDownloadLocation env) (ensureBin env (disk w)) = (Throw e, d1) ->
  exists w',
    installDockerCompose env w = (Throw e, w') /\
    disk w' = d1 /\
    log w' = log w ++ mkdirLog env (disk w)
               ++ [EvDownload a (dockerComposeDownloadLocation env)] /\
    detached w' = detached w /\
    (files d1 !! dockerComposeDownloadLocation env
       = files (ensureBin env (disk w)) !! dockerComposeDownloadLocation env ->
     files (disk w') !! dockerComposeDownloadLocation env
       = files (disk w) !! dockerComposeDownloadLocation env).
Proof.
  intros Hl Hp Hsel Ha Hready Hdl.
  rewrite (install_selected env w l picked r Hl Hp Hsel).
  rewrite (installRelease_download env r w a (Throw e) d1 Ha Hready Hdl).
  eexists. split; [reflexivity |]. simpl. repeat split.
  intros ->. by rewrite files_ensureBin.
Qed.

Lemma install_download_failure_witness :
  exists w',
    installDockerCompose offlineHost Samples.w0
      = (Throw (Rejected "DownloadError"), w') /\
    files (disk w') !! dockerComposeDownloadLocation offlineHost = None.
Proof.
  assert (Hready : folderReady offlineHost (disk Samples.w0)) by (right; reflexivity).
  destruct (install_download_failure offlineHost Samples.w0 Samples.releases None
              {| id := "v2"; label := "2.0" |} 22%N (Rejected "DownloadError")
              (ensureBin offlineHost (disk Samples.w0))
              eq_refl eq_refl eq_refl eq_refl Hready eq_refl)
    as (w' & E & _ & _ & _ & Hsame).
  exists w'. split; [exact E |]. rewrite (Hsame eq_refl). reflexivity.
Defined.

(** C2, as stated, fails: the download starts on a disk with nothing at the
    destination, the downloader writes the first bytes to the path it was
    given and rejects, and the partial file is at the final destination
    when the flow has rejected. *)
Lemma install_leaves_partial_download :
  files (disk Samples.w0) !! dockerComposeDownloadLocation droppingHost = None /\
  fst (installDockerCompose droppingHost Samples.w0) = Throw (Rejected "DownloadError") /\
  files (disk (snd (installDockerCompose droppingHost Samples.w0)))
    !! dockerComposeDownloadLocation droppingHost
  = Some {| content := "compo"; mode := 420 |} /\
  log (snd (installDockerCompose droppingHost Samples.w0))
  = [EvMkdir "/home/u/.local/compose/bin";
     EvDownload 22 "/home/u/.local/compose/bin/docker-compose"].
Proof. vm_compute. repeat split. Qed.

Lemma checkFailure_rejects env firstCheck w e :
  CheckFailure env w e -> exists w', runChecks env firstCheck w = (Throw e, w').
Proof.
  intros [Hc | Hc Hs | c Hc Hs Hh Hw | c Hc Hs Hh Hw Hp];
    unfold runChecks; ok_step.
  - throw_step. by eexists.
  - ok_step. rewrite bind_assoc. throw_step. by eexists.
  - ok_step. rewrite bind_assoc. ok_step.
    destruct (startedConnections env) as [|c' rest]; [done |].
    injection Hh as ->. rewrite bind_assoc.
    destruct (addComposeWrapper env c (with_currentInformation None w))
      as [r w1] eqn:Ew. simpl in Hw. subst r.
    throw_step. by eexists.
  - ok_step. rewrite bind_assoc. ok_step.
    destruct (startedConnections env) as [|c' rest]; [done |].
    injection Hh as ->. rewrite bind_assoc.
    destruct (addComposeWrapper env c (with_currentInformation None w))
      as [r w1] eqn:Ew. simpl in Hw. subst r.
    ok_step. rewrite bind_assoc. throw_step. by eexists.
Qed.

Lemma rejects_checkFailure env firstCheck w e w' :
  runChecks env firstCheck w = (Throw e, w') -> CheckFailure env w e.
Proof.
  unfold runChecks. ok_step.
  destruct (checkForDockerCompose (detect env)) as [[|]|e0] eqn:Hc.
  - ok_step. rewrite bind_assoc.
    destruct (checkDefaultSocketIsAlive (detect env)) as [[|]|e1] eqn:Hs.
    + ok_step. ok_step.
      finish_absurd (finish_spec (changes ICON_CHECK tooltipReachable COMPOSE_CHECKS_COMMAND)
                       firstCheck (with_currentInformation None w)).
    + ok_step.
      destruct (startedConnections env) as [|c rest] eqn:Hst.
      * ok_step.
        finish_absurd (finish_spec (changes ICON_WARNING tooltipNoEngine COMPOSE_CHECKS_COMMAND)
                         firstCheck (with_currentInformation None w)).
      * rewrite bind_assoc.
        destruct (addComposeWrapper env c (with_currentInformation None w))
          as [[[]|e2] w1] eqn:Ew.
        2: { throw_step. intros [= <- <-].
             apply (WrapperStepRejects env w e2 c); try done.
             - by rewrite Hst.
             - by rewrite Ew. }
        ok_step. rewrite bind_assoc.
        destruct (checkStoragePath (detect env)) as [[|]|e3] eqn:Hp.
        -- ok_step. cbn [negb]. ok_step.
           finish_absurd (finish_spec
                            (changes ICON_CHECK (tooltipUsable env) COMPOSE_CHECKS_COMMAND)
                            firstCheck w1).
        -- ok_step. cbn [negb]. rewrite bind_assoc. ok_step. ok_step.
           finish_absurd (finish_spec
                            (changes ICON_WARNING (tooltipNeedsWrapper env)
                               COMPOSE_CHECKS_COMMAND)
                            firstCheck
                            (with_currentInformation (Some (advisory env)) w1)).
        -- throw_step. intros [= <- <-].
           apply (PathProbeRejects env w e3 c); try done.
           ++ by rewrite Hst.
           ++ by rewrite Ew.
    + throw_step. intros [= <- <-]. by apply SocketProbeRejects.
  - ok_step. ok_step.
    finish_absurd (finish_spec (changes ICON_DOWNLOAD "Install Compose" COMPOSE_INSTALL_COMMAND)
                     firstCheck (with_currentInformation None w)).
  - throw_step. intros [= <- <-]. by apply ComposeProbeRejects.
Qed.

Lemma makeExecutable_fails env p w e :
  chmodFails env p (disk w) e ->
  exists w', makeExecutable env p w = (Throw e, w') /\ disk w' = disk w.
Proof.
  intros (Hos & [Hfault | (Hfault & Hfile & Hfolder & ->)]).
  - rewrite (makeExecutable_fault env p e w Hos Hfault). by eexists.
  - unfold makeExecutable, chmod. rewrite Hos, Hfault.
    erewrite bind_ok by reflexivity. cbv beta.
    unfold on_disk, disk_chmod. simpl. rewrite Hfile.
    rewrite bool_decide_eq_false_2 by done. by eexists.
Qed.

Lemma makeExecutable_throw_inv env p w e w' :
  makeExecutable env p w = (Throw e, w') ->
  chmodFails env p (disk w) e /\ disk w' = disk w.
Proof.
  unfold makeExecutable, chmodFails, chmod.
  destruct (isLinux (os env) || isMac (os env)); [| discriminate].
  destruct (fsFault (api env) OpChmod p) as [e0|] eqn:Hfault.
  - erewrite bind_ok by reflexivity. cbv beta. intros [= <- <-].
    split; [split; [done | by left] | done].
  - erewrite bind_ok by reflexivity. cbv beta.
    unfold on_disk, disk_chmod. simpl.
    destruct (files (disk w) !! p) as [f|] eqn:Hfile; [discriminate |].
    destruct (bool_decide (p ∈ folders (disk w))) eqn:Hfolder; [discriminate |].
    intros [= <- <-]. apply bool_decide_eq_false_1 in Hfolder.
    split; [split; [done | by right] | done].
Qed.

Lemma selected_none picked (l : list Release) :
  selected picked l = None -> picked = None /\ l = [].
Proof. destruct picked, l; by intros [=]. Qed.

(** Each failure of a step makes the flow reject with it, and leaves the
    disk the step names. *)
Lemma installFailure_rejects env w stage e d :
  InstallFailure env w stage e d ->
  exists w', installDockerCompose env w = (Throw e, w') /\ disk w' = d.
Proof.
  intros [e0 Hl | l e0 Hl Hp | Hl Hp | l picked r e0 Hl Hp Hsel Ha
         | l picked r a e0 Hl Hp Hsel Ha Hex Hfault
         | l picked r a e0 d0 Hl Hp Hsel Ha Hready Hdl
         | l picked r a e0 d0 Hl Hp Hsel Ha Hready Hdl Hch].
  - unfold installDockerCompose. throw_step. by eexists.
  - unfold installDockerCompose. ok_step. throw_step. by eexists.
  - unfold installDockerCompose. ok_step. ok_step.
    unfold firstRelease. simpl. throw_step. by eexists.
  - rewrite (install_selected env w l picked r Hl Hp Hsel).
    unfold installRelease. throw_step. by eexists.
  - rewrite (install_selected env w l picked r Hl Hp Hsel).
    unfold installRelease. ok_step.
    rewrite (ensureFolder_fault env _ w e0 Hex Hfault). by eexists.
  - rewrite (install_selected env w l picked r Hl Hp Hsel).
    rewrite (installRelease_download env r w a (Throw e0) d0 Ha Hready Hdl).
    by eexists.
  - rewrite (install_selected env w l picked r Hl Hp Hsel).
    rewrite (installRelease_download env r w a (Ok tt) d0 Ha Hready Hdl).
    cbv zeta.
    match goal with
    | |- context [bind (makeExecutable env ?p) _ ?w1] =>
        destruct (makeExecutable_fails env p w1 e0 Hch) as (w2 & Em & Hd)
    end.
    erewrite bind_throw by exact Em. exists w2. split; [done |].
    by rewrite Hd.
Qed.

(** Every rejection of the flow is the failure of one of its steps. *)
Lemma rejects_installFailure env w e w' :
  installDockerCompose env w = (Throw e, w') ->
  exists stage, InstallFailure env w stage e (disk w').
Proof.
  unfold installDockerCompose.
  destruct (grabLatestsReleasesMetadata (composeGitHubReleases env)) as [l|e0] eqn:Hl.
  2: { throw_step. intros [= <- <-]. eexists. by apply ListingRejects. }
  ok_step.
  destruct (showQuickPick (api env) l) as [picked|e0] eqn:Hp.
  2: { throw_step. intros [= <- <-]. eexists. by eapply PickerRejects. }
  ok_step.
  destruct (selected picked l) as [r|] eqn:Hsel.
  2: { apply selected_none in Hsel as (-> & ->).
       unfold firstRelease. simpl. throw_step. intros [= <- <-].
       eexists. by apply NoRelease. }
  assert (Hstep : (match picked with
                   | Some r0 => ret r0
                   | None => firstRelease l
                   end) w = (Ok r, w)).
  { destruct picked as [r'|]; simpl in Hsel.
    - by injection Hsel as ->.
    - unfold firstRelease. by rewrite Hsel. }
  erewrite bind_ok by exact Hstep. cbv beta.
  destruct (getReleaseAssetId (composeGitHubReleases env) (id r)
              (platform (api env)) (arch (api env))) as [a|e0] eqn:Ha.
  2: { unfold installRelease. throw_step. intros [= <- <-].
       eexists. by eapply AssetRejects. }
  assert (Hcases : folderReady env (disk w) \/
            (disk_exists (storageBinFolder env) (disk w) = false /\
             exists e0, fsFault (api env) OpMkdir (storageBinFolder env) = Some e0)).
  { unfold folderReady.
    destruct (disk_exists (storageBinFolder env) (disk w)); [by left; left |].
    destruct (fsFault (api env) OpMkdir (storageBinFolder env)) as [e0|];
      [right; eauto | by left; right]. }
  destruct Hcases as [Hready | (Hex & e0 & Hfault)].
  2: { unfold installRelease. ok_step.
       rewrite (ensureFolder_fault env _ w e0 Hex Hfault). intros [= <- <-].
       eexists. cbn [disk with_log]. by eapply FolderRejects. }
  destruct (downloadReleaseAsset (composeGitHubReleases env) a
              (dockerComposeDownloadLocation env) (ensureBin env (disk w)))
    as [res d1] eqn:Hdl.
  rewrite (installRelease_download env r w a res d1 Ha Hready Hdl). cbv zeta.
  destruct res as [[]|e0].
  2: { intros [= <- <-]. eexists. cbn [disk with_disk]. by eapply DownloadRejects. }
  match goal with
  | |- context [bind (makeExecutable env ?p) _ ?w1] =>
      destruct (makeExecutable env p w1) as [[[]|e0] w2] eqn:Em
  end.
  - ok_step. ok_step. unfold spawnRunChecks. ok_step. unfold modify. discriminate.
  - throw_step. intros [= <- <-].
    apply makeExecutable_throw_inv in Em as (Hch & Hd).
    eexists. rewrite Hd. cbn [disk with_disk] in *. by eapply PermissionRejects.
Qed.

(** C3, as the code has it. Nothing catches a failure in either path. A
    check cycle rejects exactly when a probe or the wrapper step rejects,
    with that failure, and then neither the status bar nor the messaging
    sink has been written (the advisory stays cleared). The install flow
    rejects exactly when one of its steps fails, with that failure: the
    listing, the picker, the read at index 0 of an empty list, the asset
    lookup, the creation of the bin folder, the download, the permission
    change. It then shows no success message and schedules no re-check.
    The disk is untouched when the failure comes before the download, the
    refused folder included; after a failed download it is as the
    downloader left it; a failure of the permission step leaves the disk of
    the completed download, the new binary in place. *)
Theorem failures_propagate env firstCheck w e :
  (CheckFailure env w e <-> exists w', runChecks env firstCheck w = (Throw e, w')) /\
  (forall w',
     runChecks env firstCheck w = (Throw e, w') ->
     statusBarItem w' = statusBarItem w /\
     shown (log w') = shown (log w) /\
     currentInformation w' = None) /\
  (forall d,
     (exists stage, InstallFailure env w stage e d) <->
     (exists w', installDockerCompose env w = (Throw e, w') /\ disk w' = d)) /\
  (forall stage d,
     InstallFailure env w stage e d -> beforeDownload stage = true -> d = disk w) /\
  (forall w',
     installDockerCompose env w = (Throw e, w') ->
     shown (log w') = shown (log w) /\
     detached w' = detached w /\
     statusBarItem w' = statusBarItem w /\
     currentInformation w' = currentInformation w /\
     registered w' = registered w).
Proof.
  split; [| split; [| split; [| split]]].
  - split; [apply checkFailure_rejects |].
    intros (w' & E). by eapply rejects_checkFailure.
  - intros w' E.
    by destruct (runChecks_throw env firstCheck w e w' E) as (? & ? & ? & _).
  - intros d. split.
    + intros (stage & H). by eapply installFailure_rejects.
    + intros (w' & E & <-). by eapply rejects_installFailure.
  - intros stage d H. by destruct H.
  - intros w' E.
    by destruct (installDockerCompose_framesOnThrow env w e w' E)
      as (? & ? & ? & ? & ?).
Qed.

Lemma failures_propagate_witness :
  (exists w',
     runChecks faultyProbeHost false Samples.w0 = (Throw (Rejected "EACCES"), w')) /\
  (exists w',
     installDockerCompose mkdirRefusingHost Samples.w0
       = (Throw (Rejected "EACCES"), w') /\
     disk w' = disk Samples.w0).
Proof.
  split.
  - destruct (failures_propagate faultyProbeHost false Samples.w0 (Rejected "EACCES"))
      as ((H & _) & _).
    apply H. by apply ComposeProbeRejects.
  - destruct (failures_propagate mkdirRefusingHost false Samples.w0 (Rejected "EACCES"))
      as (_ & _ & H & _).
    apply (H (disk Samples.w0)). exists AtFolder.
    by apply (FolderRejects mkdirRefusingHost Samples.w0 Samples.releases None
                {| id := "v2"; label := "2.0" |} 22%N).
Defined.

(** C3, as stated, fails on both counts. A probe that rejects makes the
    cycle reject, and the status bar keeps the check icon it had: no warning
    is pushed. An install that fails at the permission step has already
    replaced the binary of the earlier install. *)
Lemma failures_neither_degraded_nor_rolled_back :
  (fst (runChecks faultyProbeHost false Samples.w0) = Throw (Rejected "EACCES") /\
   statusBarItem (snd (runChecks faultyProbeHost false Samples.w0))
     = Some Samples.item0 /\
   iconClass Samples.item0 = Some ICON_CHECK) /\
  (fst (installDockerCompose chmodRefusingHost installedWorld)
     = Throw (Rejected "EPERM") /\
   files (disk installedWorld) !! dockerComposeDownloadLocation chmodRefusingHost
     = Some {| content := "old-binary"; mode := mode_0o755 |} /\
   files (disk (snd (installDockerCompose chmodRefusingHost installedWorld)))
     !! dockerComposeDownloadLocation chmodRefusingHost
     = Some {| content := "compose-binary"; mode := 420 |}).
Proof. vm_compute. repeat split. Qed.

(** ** Around the claims *)

(** No rule of the design produces [InstalledNeedsWrapper]. *)
Lemma transition_never_needs_wrapper a b c d :
  transition a b c d <> InstalledNeedsWrapper.
Proof. by destruct a, b, c, d. Qed.

(** The sixteen input combinations collapse to four statuses. *)
Lemma transition_cases a b c d :
  transition a b c d =
  match a, b, c, d with
  | false, _, _, _ => NotInstalled
  | true, true, _, _ => InstalledAndReachable
  | true, false, false, _ => NoRunningEngine
  | true, false, true, true => InstalledAndReachable
  | true, false, true, false => InstalledNeedsPathSetup
  end.
Proof. by destruct a, b, c, d. Qed.

(** The re-check an install leaves behind is one cycle run with the
    first-check flag off. *)
Lemma settle_recheck env w :
  detached w = [TaskRunChecks false] ->
  settle env w = snd (runChecks env false (with_detached [] w)).
Proof. intros H. unfold settle. by rewrite H. Qed.

(** * Further properties of the extension *)

(** Every cycle either rejects or ends in [finish], from a world whose
    status bar, registry and detached calls are those it started with. *)
Lemma runChecks_cases env firstCheck w :
  (exists e w', runChecks env firstCheck w = (Throw e, w')) \/
  (exists ch wmid,
     runChecks env firstCheck w = finish ch firstCheck wmid /\
     statusBarItem wmid = statusBarItem w /\
     registered wmid = registered w /\
     detached wmid = detached w).
Proof.
  unfold runChecks. ok_step.
  destruct (checkForDockerCompose (detect env)) as [[|]|e0] eqn:Hc.
  - ok_step. rewrite bind_assoc.
    destruct (checkDefaultSocketIsAlive (detect env)) as [[|]|e1] eqn:Hs.
    + ok_step. ok_step. right. by eexists _, _.
    + ok_step.
      destruct (startedConnections env) as [|c rest].
      * ok_step. right. by eexists _, _.
      * pose proof (frames_addComposeWrapper env c (with_currentInformation None w))
          as (Hsb1 & _ & Hreg1 & Hdet1 & _).
        rewrite bind_assoc.
        destruct (addComposeWrapper env c (with_currentInformation None w))
          as [[[]|e2] w1] eqn:Ew; simpl in *.
        2: { throw_step. left. by eexists _, _. }
        ok_step. rewrite bind_assoc.
        destruct (checkStoragePath (detect env)) as [[|]|e3] eqn:Hp.
        -- ok_step. cbn [negb]. ok_step. right. by eexists _, w1.
        -- ok_step. cbn [negb]. rewrite bind_assoc. ok_step. ok_step.
           right. by eexists _, (with_currentInformation (Some (advisory env)) w1).
        -- throw_step. left. by eexists _, _.
    + throw_step. left. by eexists _, _.
  - ok_step. ok_step. right. by eexists _, _.
  - throw_step. left. by eexists _, _.
Qed.

(** X1. A cycle never creates, renames, hides or shows the status bar
    item, and never touches the command registry or the calls left to the
    event loop, whatever its outcome. *)
Theorem runChecks_keeps_item env firstCheck w :
  let w' := snd (runChecks env firstCheck w) in
  text <$> statusBarItem w' = text <$> statusBarItem w /\
  visible <$> statusBarItem w' = visible <$> statusBarItem w /\
  registered w' = registered w /\ detached w' = detached w.
Proof.
  intros w'. subst w'.
  destruct (runChecks_cases env firstCheck w)
    as [(e & w' & E) | (ch & wmid & E & Hsb & Hreg & Hdet)].
  - rewrite E. cbn [snd].
    destruct (runChecks_throw env firstCheck w e w' E) as (-> & _ & _ & -> & ->).
    done.
  - rewrite E.
    destruct (finish_spec ch firstCheck wmid)
      as (w' & E' & Hsb' & _ & _ & Hreg' & Hdet' & _).
    rewrite E'. cbn [snd]. rewrite Hsb', Hreg', Hdet', Hsb, Hreg, Hdet.
    by destruct (statusBarItem w).
Qed.

Lemma withItem_spec w :
  exists item,
    statusBarItem (withItem w) = Some item /\
    (statusBarItem w = None -> text item = "Compose" /\ visible item = true) /\
    (forall old, statusBarItem w = Some old -> item = old) /\
    registered (withItem w) = registered w /\
    log (withItem w) = log w /\ disk (withItem w) = disk w.
Proof.
  unfold withItem. destruct (statusBarItem w) as [old|] eqn:E.
  - exists old. rewrite E. repeat split; try done. by intros ? [= ->].
  - eexists. simpl. repeat split; done.
Qed.

Lemma command_of_presentation env hasCompose hasSocket hasStarted hasPath item :
  command (present (presentation env
                      (transition hasCompose hasSocket hasStarted hasPath)
                      (negb hasSocket)) item)
  = if hasCompose then COMPOSE_CHECKS_COMMAND else COMPOSE_INSTALL_COMMAND.
Proof. by destruct hasCompose, hasSocket, hasStarted, hasPath. Qed.

(** X2. When the initial cycle of [activate] succeeds, the two commands
    are registered after it, install first, and the command the status bar
    then carries is one of them, with the handler that fits: the install
    flow when compose is missing, a cycle that is not the first otherwise.
    An item created by [activate] is labelled Compose and shown. *)
Theorem activate_registers_commands env w hasCompose hasSocket hasPath :
  checkForDockerCompose (detect env) = Ok hasCompose ->
  checkDefaultSocketIsAlive (detect env) = Ok hasSocket ->
  checkStoragePath (detect env) = Ok hasPath ->
  regenerationSucceeds env (withItem w) ->
  exists w' item,
    activate env w = (Ok tt, w') /\
    registered w' = registered w ++
      [(COMPOSE_INSTALL_COMMAND, HandlerInstall);
       (COMPOSE_CHECKS_COMMAND, HandlerChecks)] /\
    statusBarItem w' = Some item /\
    (command item, if hasCompose then HandlerChecks else HandlerInstall)
      ∈ registered w' /\
    runHandler env (if hasCompose then HandlerChecks else HandlerInstall)
      = (if hasCompose then runChecks env false else installDockerCompose env) /\
    (statusBarItem w = None -> text item = "Compose" /\ visible item = true).
Proof.
  intros Hc Hs Hp Hr.
  destruct (runChecks_ok env true (withItem w) _ _ _ Hc Hs Hp Hr)
    as (w1 & E & Hsb & _ & _ & Hreg & _).
  destruct (withItem_spec w) as (item0 & Hitem & Hnew & _ & Hreg0 & _).
  rewrite Hitem in Hsb. simpl in Hsb.
  unfold activate. erewrite bind_ok by reflexivity. cbv beta.
  erewrite bind_ok by exact E. cbv beta.
  eexists _, _. split; [reflexivity |]. simpl.
  split; [by rewrite Hreg, Hreg0 |].
  split; [exact Hsb |].
  rewrite command_of_presentation, Hreg, Hreg0.
  split; [| split].
  - apply elem_of_app. right. destruct hasCompose.
    + apply list_elem_of_further, list_elem_of_here.
    + apply list_elem_of_here.
  - by destruct hasCompose.
  - intros Hnone. by destruct (Hnew Hnone).
Qed.

Lemma activate_registers_commands_witness :
  exists w' item,
    activate Samples.needsPath freshWorld = (Ok tt, w') /\
    registered w' =
      [(COMPOSE_INSTALL_COMMAND, HandlerInstall);
       (COMPOSE_CHECKS_COMMAND, HandlerChecks)] /\
    statusBarItem w' = Some item /\
    text item = "Compose".
Proof.
  assert (Hr : regenerationSucceeds Samples.needsPath (withItem freshWorld)).
  { intros c Hc. vm_compute in Hc. injection Hc as <-. vm_compute. reflexivity. }
  destruct (activate_registers_commands Samples.needsPath freshWorld true false false
              eq_refl eq_refl eq_refl Hr)
    as (w' & item & E & Hreg & Hsb & _ & _ & Hnew).
  exists w', item. split; [exact E |]. split; [exact Hreg |].
  split; [exact Hsb |]. by destruct (Hnew eq_refl).
Defined.

(** X3. When the initial cycle of [activate] rejects, [activate] rejects
    with the same failure before it registers anything: the status bar item
    is there, neither command is, and nothing was shown. *)
Theorem activate_rejects_before_registering env w e :
  CheckFailure env (withItem w) e ->
  exists w',
    activate env w = (Throw e, w') /\
    registered w' = registered w /\
    is_Some (statusBarItem w') /\
    shown (log w') = shown (log w).
Proof.
  intros Hfail.
  destruct (checkFailure_rejects env true (withItem w) e Hfail) as (w1 & E).
  destruct (runChecks_throw env true (withItem w) e w1 E)
    as (Hsb & _ & Hsh & Hreg & _).
  destruct (withItem_spec w) as (item0 & Hitem & _ & _ & Hreg0 & Hlog0 & _).
  unfold activate. erewrite bind_ok by reflexivity. cbv beta.
  erewrite bind_throw by exact E.
  eexists. split; [reflexivity |].
  rewrite Hreg, Hreg0, Hsb, Hitem, Hsh, Hlog0. by eauto.
Qed.

Lemma activate_rejects_before_registering_witness :
  exists w',
    activate faultyProbeHost freshWorld = (Throw (Rejected "EACCES"), w') /\
    registered w' = [] /\
    is_Some (statusBarItem w').
Proof.
  destruct (activate_rejects_before_registering faultyProbeHost freshWorld
              (Rejected "EACCES"))
    as (w' & E & Hreg & Hsb & _).
  - by apply ComposeProbeRejects.
  - exists w'. by repeat split.
Defined.

(** X6. The first-check flag only defers the advisory: after a cycle run
    with the flag, [showCurrentInformation] shows the advisory, once, when
    the cycle ended in [InstalledNeedsPathSetup], and shows nothing after a
    cycle that ended in any other status. *)
Theorem showCurrentInformation_after_first_check env w hasCompose hasSocket hasPath :
  checkForDockerCompose (detect env) = Ok hasCompose ->
  checkDefaultSocketIsAlive (detect env) = Ok hasSocket ->
  checkStoragePath (detect env) = Ok hasPath ->
  regenerationSucceeds env w ->
  let s := transition hasCompose hasSocket (hasStartedConnection env) hasPath in
  exists w' w'',
    runChecks env true w = (Ok tt, w') /\
    showCurrentInformation w' = (Ok tt, w'') /\
    shown (log w') = shown (log w) /\
    shown (log w'') =
      shown (log w) ++
      (if decide (s = InstalledNeedsPathSetup) then [advisory env] else []).
Proof.
  intros Hc Hs Hp Hr s.
  destruct (runChecks_ok env true w _ _ _ Hc Hs Hp Hr)
    as (w' & E & _ & Hci & Hsh & _).
  fold s in Hci, Hsh. unfold advisoryOf in Hci. unfold noticeOf in Hsh.
  exists w'. unfold showCurrentInformation. rewrite Hci.
  destruct (decide (s = InstalledNeedsPathSetup)).
  - eexists. split; [exact E |]. split; [reflexivity |].
    rewrite app_nil_r in Hsh. split; [exact Hsh |].
    simpl. by rewrite shown_snoc, Hsh.
  - exists w'. rewrite app_nil_r in Hsh. by rewrite app_nil_r.
Qed.

Lemma showCurrentInformation_after_first_check_witness :
  exists w' w'',
    runChecks Samples.needsPath true Samples.w0 = (Ok tt, w') /\
    showCurrentInformation w' = (Ok tt, w'') /\
    shown (log w') = [] /\
    shown (log w'') = [advisory Samples.needsPath].
Proof.
  assert (Hr : regenerationSucceeds Samples.needsPath Samples.w0).
  { intros c Hc. vm_compute in Hc. injection Hc as <-. vm_compute. reflexivity. }
  destruct (showCurrentInformation_after_first_check Samples.needsPath Samples.w0
              true false false eq_refl eq_refl eq_refl Hr)
    as (w' & w'' & E & E' & Hsh & Hsh').
  exists w', w''. split; [exact E |]. split; [exact E' |].
  split; [exact Hsh | exact Hsh'].
Defined.

(** ** What a step asks of the outside *)

Lemma appendsOnly_quiet {A} P (m : M A) :
  (forall w, log (snd (m w)) = log w) -> appendsOnly P m.
Proof. intros H w. exists []. by rewrite app_nil_r. Qed.

Lemma appendsOnly_emit P e : P e -> appendsOnly P (emit e).
Proof. intros He w. exists [e]. split; [done | by constructor]. Qed.

Lemma appendsOnly_on_disk P f : appendsOnly P (on_disk f).
Proof.
  apply appendsOnly_quiet. intros w. unfold on_disk. by destruct (f (disk w)).
Qed.

Lemma appendsOnly_bind {A B} P (m : M A) (k : A -> M B) :
  appendsOnly P m -> (forall a, appendsOnly P (k a)) -> appendsOnly P (bind m k).
Proof.
  intros Hm Hk w. unfold bind. destruct (Hm w) as (l1 & E1 & H1).
  destruct (m w) as [[a|e] w1]; simpl in E1.
  - destruct (Hk a w1) as (l2 & E2 & H2). exists (l1 ++ l2).
    split; [by rewrite E2, E1, app_assoc | by apply Forall_app].
  - by exists l1.
Qed.

Lemma appendsOnly_mkdir P env p : P (EvMkdir p) -> appendsOnly P (mkdir env p).
Proof.
  intros HP. unfold mkdir.
  apply appendsOnly_bind; [by apply appendsOnly_emit | intros _].
  destruct (fsFault (api env) OpMkdir p); by apply appendsOnly_quiet.
Qed.

Lemma appendsOnly_makeExecutable P env p :
  P (EvChmod p mode_0o755) -> appendsOnly P (makeExecutable env p).
Proof.
  intros HP. unfold makeExecutable.
  destruct (isLinux (os env) || isMac (os env)); [| by apply appendsOnly_quiet].
  unfold chmod. apply appendsOnly_bind; [by apply appendsOnly_emit | intros _].
  destruct (fsFault (api env) OpChmod p);
    [by apply appendsOnly_quiet | apply appendsOnly_on_disk].
Qed.

Lemma appendsOnly_ensureFolder P env :
  P (EvMkdir (storageBinFolder env)) ->
  forall present : bool,
    appendsOnly P (if negb present then mkdir env (storageBinFolder env) else ret tt).
Proof.
  intros HP [|]; simpl; [by apply appendsOnly_quiet | by apply appendsOnly_mkdir].
Qed.

Lemma appendsOnly_addComposeWrapper env c :
  appendsOnly (cycleEvent env) (addComposeWrapper env c).
Proof.
  unfold addComposeWrapper.
  apply appendsOnly_bind; [by apply appendsOnly_quiet | intros present].
  apply appendsOnly_bind; [by apply appendsOnly_ensureFolder | intros _].
  apply appendsOnly_bind; [by apply appendsOnly_emit | intros _].
  apply appendsOnly_bind; [apply appendsOnly_on_disk | intros _].
  by apply appendsOnly_makeExecutable.
Qed.

Lemma appendsOnly_finish P ch firstCheck :
  (forall msg, P (EvShowInformationMessage msg)) -> appendsOnly P (finish ch firstCheck).
Proof.
  intros HP w.
  destruct (finish_spec ch firstCheck w) as (w' & E & _ & _ & _ & _ & _ & _ & Hl).
  rewrite E. eexists. split; [exact Hl |].
  apply Forall_fmap, Forall_forall. intros msg _. apply HP.
Qed.

Lemma appendsOnly_runChecks env firstCheck :
  appendsOnly (cycleEvent env) (runChecks env firstCheck).
Proof.
  intros w.
  destruct (runChecks_fs env firstCheck w) as (msgs & _ & Hl & _). cbv zeta in Hl.
  assert (Hmid : exists l,
             log match regenerationTarget env with
                 | Some c => snd (addComposeWrapper env c (with_currentInformation None w))
                 | None => w
                 end = log w ++ l /\ Forall (cycleEvent env) l).
  { destruct (regenerationTarget env) as [c|]; [| exists []; by rewrite app_nil_r].
    apply (appendsOnly_addComposeWrapper env c (with_currentInformation None w)). }
  destruct Hmid as (l & El & Hall).
  exists (l ++ (EvShowInformationMessage <$> msgs)). split.
  - by rewrite Hl, El, app_assoc.
  - apply Forall_app. split; [exact Hall |].
    apply Forall_fmap, Forall_forall. by intros msg _.
Qed.

Lemma appendsOnly_installRelease env r : appendsOnly (installEvent env) (installRelease env r).
Proof.
  unfold installRelease.
  apply appendsOnly_bind; [by apply appendsOnly_quiet | intros a].
  apply appendsOnly_bind; [by apply appendsOnly_quiet | intros present].
  apply appendsOnly_bind; [by apply appendsOnly_ensureFolder | intros _].
  apply appendsOnly_bind; [by apply appendsOnly_emit | intros _].
  apply appendsOnly_bind; [apply appendsOnly_on_disk | intros _].
  apply appendsOnly_bind; [by apply appendsOnly_makeExecutable | intros _].
  apply appendsOnly_bind; [by apply appendsOnly_emit | intros _].
  by apply appendsOnly_quiet.
Qed.

Lemma appendsOnly_installDockerCompose env :
  appendsOnly (installEvent env) (installDockerCompose env).
Proof.
  unfold installDockerCompose.
  apply appendsOnly_bind; [by apply appendsOnly_quiet | intros l].
  apply appendsOnly_bind; [by apply appendsOnly_quiet | intros picked].
  apply appendsOnly_bind; [| intros r; apply appendsOnly_installRelease].
  destruct picked; [by apply appendsOnly_quiet |].
  unfold firstRelease. destruct (l !! 0%nat); by apply appendsOnly_quiet.
Qed.

Lemma no_downloads_in_cycle env l : Forall (cycleEvent env) l -> downloads l = [].
Proof.
  induction 1 as [|e l He _ IH]; [done |].
  destruct e; simpl in *; try done.
Qed.

Lemma no_generate_in_install env l : Forall (installEvent env) l -> generated l = [].
Proof.
  induction 1 as [|e l He _ IH]; [done |].
  destruct e; simpl in *; try done.
Qed.

(** X8. Whatever its outcome, a check cycle asks the outside for nothing
    but the bin folder, the wrapper script ([generate], then mode [0o755])
    and messages: it never calls the downloader and never changes the mode
    of another file, the binary included. *)
Theorem runChecks_confined env firstCheck w :
  exists l,
    log (snd (runChecks env firstCheck w)) = log w ++ l /\
    Forall (cycleEvent env) l /\
    downloads (log (snd (runChecks env firstCheck w))) = downloads (log w) /\
    Forall (fun change => change = (composeWrapperScript env, mode_0o755)) (chmods l).
Proof.
  destruct (appendsOnly_runChecks env firstCheck w) as (l & El & Hall).
  exists l. split; [exact El |]. split; [exact Hall |]. split.
  - by rewrite El, downloads_app, (no_downloads_in_cycle env l Hall), app_nil_r.
  - apply Forall_forall. intros [p m] Hin. unfold chmods in Hin.
    apply list_elem_of_omap in Hin as (e & He & Heq).
    rewrite Forall_forall in Hall. specialize (Hall e He).
    destruct e; simpl in *; try done.
    injection Heq as <- <-. by destruct Hall as [-> ->].
Qed.

Lemma keepsBar_frames {A} (m : M A) : frames m -> keepsBar m.
Proof. intros Hm w. by destruct (Hm w) as (? & _ & ? & _). Qed.

Lemma keepsBar_bind {A B} (m : M A) (k : A -> M B) :
  keepsBar m -> (forall a, keepsBar (k a)) -> keepsBar (bind m k).
Proof.
  intros Hm Hk w. unfold bind. destruct (Hm w) as (Hsb & Hreg).
  destruct (m w) as [[a|e] w1]; simpl in *; [| done].
  destruct (Hk a w1) as (Hsb' & Hreg'). split; congruence.
Qed.

Lemma keepsBar_installRelease env r : keepsBar (installRelease env r).
Proof.
  unfold installRelease.
  apply keepsBar_bind; [apply keepsBar_frames, frames_await | intros a].
  apply keepsBar_bind; [apply keepsBar_frames, frames_existsSync | intros present].
  apply keepsBar_bind.
  { apply keepsBar_frames. destruct present; simpl; [apply frames_ret | apply frames_mkdir]. }
  intros _. apply keepsBar_bind; [by apply keepsBar_frames, frames_emit | intros _].
  apply keepsBar_bind; [apply keepsBar_frames, frames_on_disk | intros _].
  apply keepsBar_bind; [apply keepsBar_frames, frames_makeExecutable | intros _].
  by intros w.
Qed.

Lemma keepsBar_installDockerCompose env : keepsBar (installDockerCompose env).
Proof.
  unfold installDockerCompose.
  apply keepsBar_bind; [apply keepsBar_frames, frames_await | intros l].
  apply keepsBar_bind; [apply keepsBar_frames, frames_await | intros picked].
  apply keepsBar_bind; [| intros r; apply keepsBar_installRelease].
  apply keepsBar_frames. destruct picked; [apply frames_ret |].
  unfold firstRelease. destruct (l !! 0%nat); [apply frames_ret | apply frames_throw].
Qed.

(** X9. Whatever its outcome, the install flow itself asks the outside
    for nothing but the bin folder, the binary (download, then mode
    [0o755]) and messages: it never calls the wrapper generator, and it
    writes neither the status bar nor the command registry; those are left
    to the re-check. *)
Theorem installDockerCompose_confined env w :
  exists l,
    log (snd (installDockerCompose env w)) = log w ++ l /\
    Forall (installEvent env) l /\
    generated (log (snd (installDockerCompose env w))) = generated (log w) /\
    Forall (fun change => change = (dockerComposeDownloadLocation env, mode_0o755))
           (chmods l) /\
    statusBarItem (snd (installDockerCompose env w)) = statusBarItem w /\
    registered (snd (installDockerCompose env w)) = registered w.
Proof.
  destruct (appendsOnly_installDockerCompose env w) as (l & El & Hall).
  destruct (keepsBar_installDockerCompose env w) as (Hsb & Hreg).
  exists l. split; [exact El |]. split; [exact Hall |]. split; [| split; [| done]].
  - by rewrite El, generated_app, (no_generate_in_install env l Hall), app_nil_r.
  - apply Forall_forall. intros [p m] Hin. unfold chmods in Hin.
    apply list_elem_of_omap in Hin as (e & He & Heq).
    rewrite Forall_forall in Hall. specialize (Hall e He).
    destruct e; simpl in *; try done.
    injection Heq as <- <-. by destruct Hall as [-> ->].
Qed.

Lemma mkdirs_app a b : mkdirs (a ++ b) = mkdirs a ++ mkdirs b.
Proof. apply omap_app. Qed.

Lemma mkdirs_shows l ms : mkdirs (l ++ (EvShowInformationMessage <$> ms)) = mkdirs l.
Proof.
  rewrite mkdirs_app. unfold mkdirs at 2.
  induction ms as [|m ms IH]; simpl in *; [by rewrite app_nil_r | exact IH].
Qed.

Lemma mkdirs_notMkdir l : Forall notMkdir l -> mkdirs l = [].
Proof.
  induction 1 as [|e l He _ IH]; [done |].
  destruct e; simpl in *; try done.
Qed.

Lemma addComposeWrapper_mkdirs env c w :
  mkdirs (log (snd (addComposeWrapper env c w))) =
  mkdirs (log w) ++
  (if disk_exists (storageBinFolder env) (disk w) then [] else [storageBinFolder env]).
Proof.
  assert (Hrest : forall w1,
            mkdirs (log (snd
              ((let* _ := emit (EvGenerate c (composeWrapperScript env)) in
                let* _ := on_disk (generate (podmanComposeGenerator env) c
                                     (composeWrapperScript env)) in
                makeExecutable env (composeWrapperScript env)) w1)))
            = mkdirs (log w1)).
  { intros w1.
    assert (Hq : appendsOnly notMkdir
              (let* _ := emit (EvGenerate c (composeWrapperScript env)) in
               let* _ := on_disk (generate (podmanComposeGenerator env) c
                                    (composeWrapperScript env)) in
               makeExecutable env (composeWrapperScript env))).
    { apply appendsOnly_bind; [by apply appendsOnly_emit | intros _].
      apply appendsOnly_bind; [apply appendsOnly_on_disk | intros _].
      by apply appendsOnly_makeExecutable. }
    destruct (Hq w1) as (l & El & Hall).
    by rewrite El, mkdirs_app, (mkdirs_notMkdir l Hall), app_nil_r. }
  unfold addComposeWrapper. erewrite bind_ok by reflexivity. cbv beta.
  destruct (disk_exists (storageBinFolder env) (disk w)); cbn [negb].
  - erewrite bind_ok by reflexivity. cbv beta. by rewrite Hrest, app_nil_r.
  - unfold mkdir. destruct (fsFault (api env) OpMkdir (storageBinFolder env)).
    + erewrite bind_throw by reflexivity. simpl. by rewrite mkdirs_app.
    + erewrite bind_ok by reflexivity. cbv beta. rewrite Hrest. simpl.
      by rewrite mkdirs_app.
Qed.

(** X7. The bin folder is made lazily: a cycle asks for [mkdir] exactly
    when it reaches the regeneration branch and [existsSync] finds no bin
    folder, once and for the bin folder; when the folder is there, or the
    branch is not reached, no [mkdir] is asked, whatever the outcome. *)
Theorem cycle_creates_folder_lazily env firstCheck w :
  mkdirs (log (snd (runChecks env firstCheck w))) =
  mkdirs (log w) ++
  (if reachesRegeneration env && negb (disk_exists (storageBinFolder env) (disk w))
   then [storageBinFolder env] else []).
Proof.
  destruct (runChecks_fs env firstCheck w) as (msgs & _ & Hl & _). cbv zeta in Hl.
  rewrite Hl, mkdirs_shows.
  destruct (reachesRegeneration env) eqn:Hr.
  - destruct (reaches_true_target env Hr) as (c & ->).
    rewrite addComposeWrapper_mkdirs. simpl.
    by destruct (disk_exists (storageBinFolder env) (disk w)).
  - rewrite (reaches_false_target env Hr). simpl. by rewrite app_nil_r.
Qed.

(** X4. The release the user picks is the one installed, wherever it
    stands in the list and even when the list is empty: nothing is read at
    index 0, the asset is looked up for the picked release, and the success
    message carries its label. *)
Theorem picked_release_is_installed env w l r :
  grabLatestsReleasesMetadata (composeGitHubReleases env) = Ok l ->
  showQuickPick (api env) l = Ok (Some r) ->
  installDockerCompose env w = installRelease env r w /\
  (forall a d1,
     getReleaseAssetId (composeGitHubReleases env) (id r)
       (platform (api env)) (arch (api env)) = Ok a ->
     folderReady env (disk w) ->
     downloadReleaseAsset (composeGitHubReleases env) a
       (dockerComposeDownloadLocation env) (ensureBin env (disk w)) = (Ok tt, d1) ->
     chmodReady env (dockerComposeDownloadLocation env) d1 ->
     exists w',
       installDockerCompose env w = (Ok tt, w') /\
       downloads (log w')
         = downloads (log w) ++ [(a, dockerComposeDownloadLocation env)] /\
       shown (log w')
         = shown (log w) ++ ["Docker Compose " +:+ label r +:+ " installed"]).
Proof.
  intros Hl Hp.
  assert (Hsel : installDockerCompose env w = installRelease env r w)
    by (by apply (install_selected env w l (Some r) r)).
  split; [exact Hsel |].
  intros a d1 Ha Hready Hdl Hch. rewrite Hsel.
  destruct (installRelease_ok env r w a d1 Ha Hready Hdl Hch)
    as (w' & E & _ & Hlog & _).
  exists w'. split; [exact E |]. rewrite Hlog.
  destruct (quiet_mkdirLog env (disk w)) as (Hd1 & Hs1).
  destruct (quiet_chmodLog env (dockerComposeDownloadLocation env))
    as (Hd2 & Hs2 & _).
  split.
  - rewrite !downloads_app, Hd1, Hd2. reflexivity.
  - rewrite !shown_app, Hs1, Hs2. reflexivity.
Qed.

Lemma picked_release_is_installed_witness :
  exists w',
    installDockerCompose pickingHost Samples.w0 = (Ok tt, w') /\
    downloads (log w') = [(11%N, dockerComposeDownloadLocation pickingHost)] /\
    shown (log w') = ["Docker Compose 1.0 installed"].
Proof.
  destruct (picked_release_is_installed pickingHost Samples.w0 Samples.releases
              {| id := "v1"; label := "1.0" |} eq_refl eq_refl) as (_ & H).
  apply (H 11%N (Samples.put (dockerComposeDownloadLocation pickingHost)
                   {| content := "compose-binary"; mode := 420 |}
                   (ensureBin pickingHost (disk Samples.w0)))).
  - reflexivity.
  - right; reflexivity.
  - reflexivity.
  - intros _. split; [reflexivity |]. eexists. apply lookup_insert_eq.
Defined.

Lemma settle_one env w firstCheck :
  detached w = [TaskRunChecks firstCheck] ->
  settle env w = snd (runChecks env firstCheck (with_detached [] w)).
Proof. intros H. unfold settle. by rewrite H. Qed.

(** X5. A successful install leaves exactly one call to the event loop,
    a cycle with the first-check flag off. Once the loop has run it with
    the answers the host then gives, the status bar carries the
    presentation of the status those answers give, the messages shown are
    the success message followed by the advisory when that status is
    [InstalledNeedsPathSetup], and nothing is left to run. *)
Theorem install_then_recheck env env' w l picked r a d1 hasCompose hasSocket hasPath :
  grabLatestsReleasesMetadata (composeGitHubReleases env) = Ok l ->
  showQuickPick (api env) l = Ok picked ->
  selected picked l = Some r ->
  getReleaseAssetId (composeGitHubReleases env) (id r)
    (platform (api env)) (arch (api env)) = Ok a ->
  folderReady env (disk w) ->
  downloadReleaseAsset (composeGitHubReleases env) a
    (dockerComposeDownloadLocation env) (ensureBin env (disk w)) = (Ok tt, d1) ->
  chmodReady env (dockerComposeDownloadLocation env) d1 ->
  detached w = [] ->
  checkForDockerCompose (detect env') = Ok hasCompose ->
  checkDefaultSocketIsAlive (detect env') = Ok hasSocket ->
  checkStoragePath (detect env') = Ok hasPath ->
  (forall w1, regenerationSucceeds env' w1) ->
  let s := transition hasCompose hasSocket (hasStartedConnection env') hasPath in
  exists w',
    installDockerCompose env w = (Ok tt, w') /\
    detached w' = [TaskRunChecks false] /\
    statusBarItem w' = statusBarItem w /\
    statusBarItem (settle env' w') =
      present (presentation env' s (negb hasSocket)) <$> statusBarItem w /\
    shown (log (settle env' w')) =
      shown (log w) ++ ["Docker Compose " +:+ label r +:+ " installed"]
        ++ noticeOf env' s false /\
    currentInformation (settle env' w') = advisoryOf env' s /\
    detached (settle env' w') = [].
Proof.
  intros Hl Hp Hsel Ha Hready Hdl Hch Hdet Hc Hs Hpath Hregen s.
  rewrite (install_selected env w l picked r Hl Hp Hsel).
  destruct (installRelease_ok env r w a d1 Ha Hready Hdl Hch)
    as (w' & E & _ & Hlog & Hdet' & _ & Hsb).
  exists w'. split; [exact E |].
  rewrite Hdet in Hdet'. simpl in Hdet'.
  split; [exact Hdet' |]. split; [exact Hsb |].
  rewrite (settle_one env' w' false Hdet').
  destruct (runChecks_ok env' false (with_detached [] w') _ _ _ Hc Hs Hpath
              (Hregen _))
    as (w'' & E' & Hsb' & Hci' & Hsh' & _ & Hdet'').
  rewrite E'. cbn [snd]. fold s in Hsb', Hci', Hsh'.
  rewrite Hsb', Hci', Hsh', Hdet''. simpl. rewrite Hsb, Hlog.
  destruct (quiet_mkdirLog env (disk w)) as (_ & Hs1).
  destruct (quiet_chmodLog env (dockerComposeDownloadLocation env)) as (_ & Hs2 & _).
  repeat split.
  rewrite !shown_app, Hs1, Hs2. simpl. by rewrite <- app_assoc.
Qed.

Lemma install_then_recheck_witness :
  exists w',
    installDockerCompose Samples.needsPath Samples.w0 = (Ok tt, w') /\
    shown (log (settle Samples.needsPath w')) =
      ["Docker Compose 2.0 installed"; advisory Samples.needsPath] /\
    detached (settle Samples.needsPath w') = [].
Proof.
  assert (Hready : folderReady Samples.needsPath (disk Samples.w0))
    by (right; reflexivity).
  assert (Hch : chmodReady Samples.needsPath
                  (dockerComposeDownloadLocation Samples.needsPath)
                  (Samples.put (dockerComposeDownloadLocation Samples.needsPath)
                     {| content := "compose-binary"; mode := 420 |}
                     (ensureBin Samples.needsPath (disk Samples.w0)))).
  { intros _. split; [reflexivity |]. eexists. apply lookup_insert_eq. }
  assert (Hregen : forall w1, regenerationSucceeds Samples.needsPath w1).
  { intros w1. apply regenerationSucceeds_ready; [right; reflexivity |].
    intros c d. eexists. split; [reflexivity |].
    intros _. split; [reflexivity |]. eexists. apply lookup_insert_eq. }
  destruct (install_then_recheck Samples.needsPath Samples.needsPath Samples.w0
              Samples.releases None {| id := "v2"; label := "2.0" |} 22%N _
              true false false
              eq_refl eq_refl eq_refl eq_refl Hready eq_refl Hch eq_refl
              eq_refl eq_refl eq_refl Hregen)
    as (w' & E & _ & _ & _ & Hsh & _ & Hdet).
  exists w'. split; [exact E |]. split; [exact Hsh | exact Hdet].
Defined.

Lemma hasStartedConnection_head env c :
  head (startedConnections env) = Some c -> hasStartedConnection env = true.
Proof.
  intros H. rewrite hasStartedConnection_spec. apply bool_decide_eq_true_2.
  by destruct (startedConnections env).
Qed.

(** X10. The cycle does not look at what the generator produced. When
    the generator resolves without leaving a script, Linux and Mac find
    out at the permission step: [chmod] rejects with ENOENT, the cycle
    rejects with it and the status bar is not written. A host that is
    neither skips that step, so the cycle completes and reports the wrapper
    status although no script exists. *)
Theorem generator_without_script env firstCheck w c d1 :
  checkForDockerCompose (detect env) = Ok true ->
  checkDefaultSocketIsAlive (detect env) = Ok false ->
  head (startedConnections env) = Some c ->
  folderReady env (disk w) ->
  generate (podmanComposeGenerator env) c (composeWrapperScript env)
    (ensureBin env (disk w)) = (Ok tt, d1) ->
  files d1 !! composeWrapperScript env = None ->
  composeWrapperScript env ∉ folders d1 ->
  (isLinux (os env) || isMac (os env) = true ->
   fsFault (api env) OpChmod (composeWrapperScript env) = None ->
   exists w',
     runChecks env firstCheck w = (Throw (Rejected "ENOENT"), w') /\
     statusBarItem w' = statusBarItem w /\
     shown (log w') = shown (log w)) /\
  (isLinux (os env) = false -> isMac (os env) = false ->
   forall hasPath,
     checkStoragePath (detect env) = Ok hasPath ->
     exists w',
       runChecks env firstCheck w = (Ok tt, w') /\
       files (disk w') !! composeWrapperScript env = None /\
       statusBarItem w' =
         present (presentation env
                    (if hasPath then InstalledAndReachable
                     else InstalledNeedsPathSetup) true)
           <$> statusBarItem w).
Proof.
  intros Hc Hs Hhead Hready Hgen Hfile Hfolder.
  assert (Hrun := addComposeWrapper_ready env c (with_currentInformation None w)
                    (Ok tt) d1 Hready Hgen).
  cbv zeta in Hrun. split.
  - intros Hos Hfault.
    assert (Hw : fst (addComposeWrapper env c (with_currentInformation None w))
                 = Throw (Rejected "ENOENT")).
    { rewrite Hrun. unfold makeExecutable, chmod. rewrite Hos, Hfault.
      erewrite bind_ok by reflexivity. cbv beta.
      unfold on_disk, disk_chmod. simpl. rewrite Hfile.
      by rewrite bool_decide_eq_false_2. }
    destruct (checkFailure_rejects env firstCheck w (Rejected "ENOENT")
                (WrapperStepRejects env w _ c Hc Hs Hhead Hw)) as (w' & E).
    exists w'. split; [exact E |].
    by destruct (runChecks_throw env firstCheck w _ w' E) as (? & _ & ? & _).
  - intros Hl Hm hasPath Hp.
    assert (Hr : regenerationSucceeds env w).
    { intros c' Hc'. assert (c' = c) as -> by congruence.
      rewrite Hrun. by rewrite makeExecutable_skip. }
    destruct (runChecks_ok env firstCheck w _ _ _ Hc Hs Hp Hr)
      as (w' & E & Hsb & _).
    rewrite (hasStartedConnection_head env c Hhead) in Hsb.
    exists w'. split; [exact E |]. split.
    + destruct (runChecks_fs env firstCheck w) as (msgs & Hd & _).
      cbv zeta in Hd. rewrite E in Hd. cbn [snd] in Hd.
      unfold regenerationTarget in Hd. rewrite Hc, Hs, Hhead in Hd.
      rewrite Hrun, makeExecutable_skip in Hd by done.
      rewrite Hd. exact Hfile.
    + rewrite Hsb. by destruct hasPath.
Qed.

Lemma generator_without_script_witness :
  (exists w',
     runChecks (idleGeneratorHost Samples.linux) false Samples.w0
       = (Throw (Rejected "ENOENT"), w') /\
     statusBarItem w' = statusBarItem Samples.w0) /\
  (exists w',
     runChecks (idleGeneratorHost Samples.windows) false Samples.w0 = (Ok tt, w') /\
     files (disk w') !! composeWrapperScript (idleGeneratorHost Samples.windows) = None /\
     iconClass <$> statusBarItem w' = Some (Some ICON_CHECK)).
Proof.
  split.
  - assert (Hready : folderReady (idleGeneratorHost Samples.linux) (disk Samples.w0))
      by (right; reflexivity).
    destruct (generator_without_script (idleGeneratorHost Samples.linux) false
                Samples.w0 Samples.podman _
                eq_refl eq_refl eq_refl Hready eq_refl eq_refl
                ltac:(apply (bool_decide_unpack _); vm_compute; exact I))
      as (H & _).
    destruct (H eq_refl eq_refl) as (w' & E & Hsb & _).
    exists w'. by split.
  - assert (Hready : folderReady (idleGeneratorHost Samples.windows) (disk Samples.w0))
      by (right; reflexivity).
    destruct (generator_without_script (idleGeneratorHost Samples.windows) false
                Samples.w0 Samples.podman _
                eq_refl eq_refl eq_refl Hready eq_refl eq_refl
                ltac:(apply (bool_decide_unpack _); vm_compute; exact I))
      as (_ & H).
    destruct (H eq_refl eq_refl true eq_refl) as (w' & E & Hf & Hsb).
    exists w'. split; [exact E |]. split; [exact Hf |]. by rewrite Hsb.
Defined.

(** * The preferences page *)

Lemma split_cons sep s : exists key pieces, PreferencesPage.split sep s = key :: pieces.
Proof.
  destruct s as [|c s]; simpl; [by eexists _, _ |].
  destruct (Ascii.eqb c sep); [by eexists _, _ |].
  destruct (PreferencesPage.split sep s); by eexists _, _.
Qed.

(** The pieces hold no separator, and joined again they give the string
    back. *)
Lemma split_pieces sep s :
  Forall (fun piece => PreferencesPage.mentions sep piece = false)
         (PreferencesPage.split sep s) /\
  PreferencesPage.join sep (PreferencesPage.split sep s) = s.
Proof.
  induction s as [|c s [IHall IHjoin]].
  - split; [by repeat constructor | done].
  - destruct (split_cons sep s) as (key & pieces & E).
    rewrite E in IHall, IHjoin.
    apply Forall_cons in IHall as (Hkey & Hrest).
    cbn [PreferencesPage.split]. rewrite E.
    destruct (Ascii.eqb c sep) eqn:Hc.
    + apply Ascii.eqb_eq in Hc as ->. split; [by repeat constructor |].
      change (PreferencesPage.join sep (EmptyString :: key :: pieces))
        with (String sep (PreferencesPage.join sep (key :: pieces))).
      by rewrite IHjoin.
    + split.
      * constructor; [| done]. cbn [PreferencesPage.mentions]. by rewrite Hc, Hkey.
      * rewrite <- IHjoin. by destruct pieces.
Qed.

Lemma mentions_separator c a b :
  PreferencesPage.mentions c (a +:+ String c b) = true.
Proof.
  induction a as [|x a IH].
  - change (Ascii.eqb c c || PreferencesPage.mentions c b = true).
    by rewrite Ascii.eqb_refl.
  - change (Ascii.eqb x c || PreferencesPage.mentions c (a +:+ String c b) = true).
    by rewrite IH, orb_true_r.
Qed.

Lemma firstDefault_first scope before p after :
  Forall (fun q => PreferencesPage.hasDefaultScope scope q = false) before ->
  PreferencesPage.hasDefaultScope scope p = true ->
  PreferencesPage.firstDefault scope (before ++ p :: after) = Some p.
Proof.
  intros Hbefore Hp. unfold PreferencesPage.firstDefault.
  induction Hbefore as [|q before Hq _ IH]; simpl.
  - by rewrite Hp.
  - by rewrite Hq.
Qed.

(** X11. When a published value holds a property of the default scope,
    the page identifier becomes the part of the first such property's
    [parentId] that precedes its first dot: it holds no dot, and with the
    remaining pieces joined by dots after it, it gives the [parentId] back.
    The properties shown are the published ones. *)
Theorem defaultPrefPageId_from_first scope before p after page :
  Forall (fun q => PreferencesPage.hasDefaultScope scope q = false) before ->
  PreferencesPage.hasDefaultScope scope p = true ->
  let page' := PreferencesPage.onValue scope (before ++ p :: after) page in
  exists key pieces,
    PreferencesPage.defaultPrefPageId page' = Some key /\
    PreferencesPage.mentions PreferencesPage.dot key = false /\
    PreferencesPage.parentId p = PreferencesPage.join PreferencesPage.dot (key :: pieces) /\
    (PreferencesPage.mentions PreferencesPage.dot (PreferencesPage.parentId p) = false ->
     key = PreferencesPage.parentId p) /\
    PreferencesPage.properties page' = Some (before ++ p :: after).
Proof.
  intros Hbefore Hp page'. subst page'. unfold PreferencesPage.onValue.
  rewrite (firstDefault_first scope before p after Hbefore Hp). simpl.
  destruct (split_cons PreferencesPage.dot (PreferencesPage.parentId p))
    as (key & pieces & E).
  destruct (split_pieces PreferencesPage.dot (PreferencesPage.parentId p))
    as (Hall & Hjoin).
  rewrite E in *. exists key, pieces.
  apply Forall_cons in Hall as (Hkey & Hrest).
  split; [done |]. split; [exact Hkey |]. split; [symmetry; exact Hjoin |].
  split; [| done].
  intros Hnone. destruct pieces as [|piece pieces]; [exact Hjoin |].
  rewrite <- Hjoin in Hnone.
  change (PreferencesPage.join PreferencesPage.dot (key :: piece :: pieces))
    with (key +:+ String PreferencesPage.dot
                    (PreferencesPage.join PreferencesPage.dot (piece :: pieces)))
    in Hnone.
  by rewrite mentions_separator in Hnone.
Qed.

Lemma defaultPrefPageId_from_first_witness :
  exists key pieces,
    PreferencesPage.defaultPrefPageId
      (PreferencesPage.onValue "DEFAULT"
         [ {| PreferencesPage.parentId := "preferences.podman";
              PreferencesPage.scope := None |};
           {| PreferencesPage.parentId := "editor.font.size";
              PreferencesPage.scope := Some "DEFAULT" |} ]
         PreferencesPage.initial) = Some key /\
    PreferencesPage.mentions PreferencesPage.dot key = false /\
    "editor.font.size" = PreferencesPage.join PreferencesPage.dot (key :: pieces).
Proof.
  destruct (defaultPrefPageId_from_first "DEFAULT"
              [ {| PreferencesPage.parentId := "preferences.podman";
                   PreferencesPage.scope := None |} ]
              {| PreferencesPage.parentId := "editor.font.size";
                 PreferencesPage.scope := Some "DEFAULT" |}
              [] PreferencesPage.initial)
    as (key & pieces & Hid & Hdot & Hjoin & _).
  - by repeat constructor.
  - reflexivity.
  - exists key, pieces. split; [exact Hid |]. split; [exact Hdot | exact Hjoin].
Defined.

Lemma last_cons_default {A} (x : A) (l : list A) :
  last (x :: l) = Some (default x (last l)).
Proof.
  revert x. induction l as [|y l IH]; intros x; [done |].
  change (last (x :: y :: l)) with (last (y :: l)). rewrite IH.
  by destruct l.
Qed.

Lemma pageIdOf_none scope value :
  PreferencesPage.pageIdOf scope value = None <->
  PreferencesPage.firstDefault scope value = None.
Proof.
  unfold PreferencesPage.pageIdOf.
  destruct (PreferencesPage.firstDefault scope value) as [p|]; [| done].
  destruct (split_cons PreferencesPage.dot (PreferencesPage.parentId p))
    as (key & pieces & ->). done.
Qed.

Lemma omap_cons_case {A B} (f : A -> option B) x l :
  omap f (x :: l) = match f x with Some y => y :: omap f l | None => omap f l end.
Proof. reflexivity. Qed.

Lemma last_omap_none {A B} (f : A -> option B) l :
  last (omap f l) = None <-> Forall (fun x => f x = None) l.
Proof.
  induction l as [|x l IH]; [by split |].
  rewrite omap_cons_case, Forall_cons. destruct (f x) as [y|] eqn:E.
  - rewrite last_cons_default. split; [done | by intros [? _]].
  - rewrite IH. split; [done | by intros [_ ?]].
Qed.

Lemma onValue_id scope value page :
  PreferencesPage.defaultPrefPageId (PreferencesPage.onValue scope value page) =
  match PreferencesPage.pageIdOf scope value with
  | Some key => Some key
  | None => PreferencesPage.defaultPrefPageId page
  end.
Proof.
  unfold PreferencesPage.onValue, PreferencesPage.pageIdOf.
  cbn [PreferencesPage.defaultPrefPageId].
  destruct (PreferencesPage.firstDefault scope value) as [p|]; [| done].
  by destruct (split_cons PreferencesPage.dot (PreferencesPage.parentId p))
    as (key & pieces & ->).
Qed.

Lemma fold_onValue scope values page :
  let page' := fold_left (fun pg value => PreferencesPage.onValue scope value pg)
                 values page in
  PreferencesPage.defaultPrefPageId page' =
    match last (omap (PreferencesPage.pageIdOf scope) values) with
    | Some key => Some key
    | None => PreferencesPage.defaultPrefPageId page
    end /\
  PreferencesPage.properties page' =
    match last values with
    | Some value => Some value
    | None => PreferencesPage.properties page
    end.
Proof.
  revert page. induction values as [|value values IH]; intros page; [done |].
  cbn [fold_left]. destruct (IH (PreferencesPage.onValue scope value page)) as (Hid & Hprops).
  cbv zeta. rewrite Hid, Hprops, onValue_id. split.
  - rewrite omap_cons_case.
    destruct (PreferencesPage.pageIdOf scope value) as [key|]; [| done].
    rewrite last_cons_default.
    by destruct (last (omap (PreferencesPage.pageIdOf scope) values)).
  - rewrite last_cons_default.
    change (PreferencesPage.properties (PreferencesPage.onValue scope value page))
      with (Some value).
    by destruct (last values).
Qed.

(** X12. The page identifier is sticky. After the store has published a
    series of values, the identifier is the one given by the last value
    that held a property of the default scope, while the properties are
    those of the last value published; a value without such a property
    replaces the properties and keeps the identifier of an earlier one. The
    route shows its empty placeholder exactly when no value so far held a
    property of the default scope. *)
Theorem preferences_page_after_values scope values :
  let page := PreferencesPage.afterValues scope values in
  PreferencesPage.defaultPrefPageId page
    = last (omap (PreferencesPage.pageIdOf scope) values) /\
  PreferencesPage.properties page = last values /\
  (PreferencesPage.rootRoute page = PreferencesPage.EmptyPlaceholder <->
   Forall (fun value => PreferencesPage.firstDefault scope value = None) values) /\
  (forall value,
     PreferencesPage.firstDefault scope value = None ->
     PreferencesPage.rootRoute (PreferencesPage.afterValues scope (values ++ [value]))
     = match PreferencesPage.rootRoute page with
       | PreferencesPage.PreferencesRendering key _ =>
           PreferencesPage.PreferencesRendering key (Some value)
       | PreferencesPage.EmptyPlaceholder => PreferencesPage.EmptyPlaceholder
       end).
Proof.
  intros page. subst page. unfold PreferencesPage.afterValues.
  destruct (fold_onValue scope values PreferencesPage.initial) as (Hid & Hprops).
  cbv zeta in Hid, Hprops.
  assert (Hid' : PreferencesPage.defaultPrefPageId
                   (fold_left (fun pg value => PreferencesPage.onValue scope value pg)
                      values PreferencesPage.initial)
                 = last (omap (PreferencesPage.pageIdOf scope) values)).
  { rewrite Hid. by destruct (last (omap (PreferencesPage.pageIdOf scope) values)). }
  split; [exact Hid' |]. split.
  { rewrite Hprops. by destruct (last values). }
  split.
  - assert (Hf : Forall (fun value => PreferencesPage.firstDefault scope value = None)
                   values
                 <-> last (omap (PreferencesPage.pageIdOf scope) values) = None).
    { rewrite last_omap_none. apply Forall_iff. intros value.
      symmetry. apply pageIdOf_none. }
    rewrite Hf. unfold PreferencesPage.rootRoute. rewrite Hid'.
    by destruct (last (omap (PreferencesPage.pageIdOf scope) values)).
  - intros value Hnone. rewrite fold_left_app. cbn [fold_left].
    unfold PreferencesPage.rootRoute, PreferencesPage.onValue at 1.
    cbn [PreferencesPage.defaultPrefPageId PreferencesPage.properties].
    rewrite Hnone.
    by destruct (PreferencesPage.defaultPrefPageId _).
Qed.

Lemma preferences_page_after_values_witness :
  PreferencesPage.rootRoute
    (PreferencesPage.afterValues "DEFAULT"
       [ [ {| PreferencesPage.parentId := "editor.font.size";
              PreferencesPage.scope := Some "DEFAULT" |} ];
         [ {| PreferencesPage.parentId := "podman.machine";
              PreferencesPage.scope := Some "ContainerConnection" |} ] ])
  = PreferencesPage.PreferencesRendering "editor"
      (Some [ {| PreferencesPage.parentId := "podman.machine";
                 PreferencesPage.scope := Some "ContainerConnection" |} ]).
Proof.
  destruct (preferences_page_after_values "DEFAULT"
              [ [ {| PreferencesPage.parentId := "editor.font.size";
                     PreferencesPage.scope := Some "DEFAULT" |} ] ])
    as (_ & _ & _ & H).
  exact (H [ {| PreferencesPage.parentId := "podman.machine";
                PreferencesPage.scope := Some "ContainerConnection" |} ] eq_refl).
Defined.

(** * The extension list *)

(** X13. In a row of the list the start and the stop button never both
    go without the class [hidden]; the remove button is rendered exactly
    for a removable extension whose start button is not hidden, that is one
    in state stopped, so an extension whose stop button is not hidden can
    never be removed; and in any state other than stopped and started both
    buttons are hidden and no remove button is rendered. *)
Theorem row_actions extension :
  (ExtensionList.startHidden extension = false ->
   ExtensionList.stopHidden extension = true) /\
  (ExtensionList.removeCell extension = ExtensionList.RemoveButton <->
   ExtensionList.removable extension = true /\
   ExtensionList.startHidden extension = false) /\
  (ExtensionList.stopHidden extension = false ->
   ExtensionList.removeCell extension <> ExtensionList.RemoveButton) /\
  (ExtensionList.state extension <> "stopped" ->
   ExtensionList.state extension <> "started" ->
   ExtensionList.startHidden extension = true /\
   ExtensionList.stopHidden extension = true /\
   ExtensionList.removeCell extension <> ExtensionList.RemoveButton).
Proof.
  unfold ExtensionList.startHidden, ExtensionList.stopHidden, ExtensionList.removeCell.
  destruct (String.eqb (ExtensionList.state extension) "stopped") eqn:Hstop;
    destruct (String.eqb (ExtensionList.state extension) "started") eqn:Hstart;
    destruct (ExtensionList.removable extension); simpl;
    try (apply String.eqb_eq in Hstop); try (apply String.eqb_eq in Hstart);
    repeat split; try done; try congruence; try (by intros [? ?]).
Qed.

Lemma row_actions_witness :
  ExtensionList.removeCell
    {| ExtensionList.id := "podman-desktop.compose"; ExtensionList.name := "compose";
       ExtensionList.displayName := "Compose"; ExtensionList.description := "";
       ExtensionList.version := "0.0.1"; ExtensionList.state := "started";
       ExtensionList.removable := true |}
  <> ExtensionList.RemoveButton.
Proof.
  match goal with
  | |- ExtensionList.removeCell ?e <> _ =>
      destruct (row_actions e) as (_ & _ & H & _)
  end.
  apply H. reflexivity.
Defined.

Lemma fold_callbacks callbacks form :
  let form' := fold_left (fun f c => ExtensionList.onCallback c f) callbacks form in
  ExtensionList.logs form' = ExtensionList.logs form ++ ExtensionList.dataLines callbacks /\
  ExtensionList.errorInstall form'
    = default (ExtensionList.errorInstall form) (ExtensionList.lastError callbacks) /\
  ExtensionList.installInProgress form'
    = match ExtensionList.lastError callbacks with
      | Some _ => false
      | None => ExtensionList.installInProgress form
      end /\
  ExtensionList.ociImage form' = ExtensionList.ociImage form.
Proof.
  revert form. unfold ExtensionList.lastError, ExtensionList.dataLines.
  induction callbacks as [|c callbacks IH]; intros form.
  - simpl. by rewrite app_nil_r.
  - cbn [fold_left]. destruct (IH (ExtensionList.onCallback c form))
      as (Hlogs & Herr & Hprog & Himg).
    cbv zeta. rewrite Hlogs, Herr, Hprog, Himg, !omap_cons_case.
    destruct c as [data|error]; cbn.
    + by rewrite <- app_assoc.
    + rewrite last_cons_default.
      by destruct (last _).
Qed.

(** X14. When the installer resolves, the form ends up with the data
    lines the installer sent, in order, followed by the finished line, and
    with nothing of the log it had before; the error shown is the last one
    the installer reported, or none; the image field is emptied and the
    spinner is off, which leaves the install button disabled. The finished
    line is logged whether or not an error was reported. *)
Theorem install_from_image_resolves h form image callbacks :
  ExtensionList.ociImage form = Some image ->
  ExtensionList.extensionInstallFromImage h (ExtensionList.trim h image)
    = (callbacks, Ok tt) ->
  exists form',
    ExtensionList.installExtensionFromImage h form = (Ok tt, form') /\
    ExtensionList.logs form'
      = ExtensionList.dataLines callbacks ++ [ExtensionList.finishedLine] /\
    ExtensionList.errorInstall form' = default "" (ExtensionList.lastError callbacks) /\
    ExtensionList.installInProgress form' = false /\
    ExtensionList.ociImage form' = Some "" /\
    ExtensionList.installDisabled form' = true.
Proof.
  intros Himage Hrun. unfold ExtensionList.installExtensionFromImage.
  cbn [ExtensionList.ociImage]. rewrite Himage. cbv zeta. rewrite Hrun.
  eexists. split; [reflexivity |].
  match goal with
  | |- context [fold_left _ callbacks ?f0] =>
      destruct (fold_callbacks callbacks f0) as (Hlogs & Herr & _ & _)
  end.
  cbv zeta in Hlogs, Herr. cbn [ExtensionList.logs ExtensionList.errorInstall] in *.
  rewrite Hlogs, Herr. done.
Qed.

Lemma install_from_image_resolves_witness :
  let h := {| ExtensionList.extensionInstallFromImage := fun _ =>
                ([ExtensionList.OnData "pulling"; ExtensionList.OnError "denied";
                  ExtensionList.OnData "done"], Ok tt);
              ExtensionList.trim := fun s => s |} in
  exists form',
    ExtensionList.installExtensionFromImage h
      {| ExtensionList.ociImage := Some "quay.io/x/y"; ExtensionList.installInProgress := false;
         ExtensionList.errorInstall := "old"; ExtensionList.logs := ["stale"] |}
      = (Ok tt, form') /\
    ExtensionList.logs form' = ["pulling"; "done"; ExtensionList.finishedLine] /\
    ExtensionList.errorInstall form' = "denied".
Proof.
  intros h.
  destruct (install_from_image_resolves h
              {| ExtensionList.ociImage := Some "quay.io/x/y";
                 ExtensionList.installInProgress := false;
                 ExtensionList.errorInstall := "old"; ExtensionList.logs := ["stale"] |}
              "quay.io/x/y" _ eq_refl eq_refl)
    as (form' & E & Hlogs & Herr & _).
  exists form'. split; [exact E |]. split; [exact Hlogs | exact Herr].
Defined.

(** X15. When the installer rejects, the flow rejects with the same
    failure and logs no finished line; the image field keeps the trimmed
    name. Nothing but an error callback turns the spinner off: when the
    installer reported no error before it rejected, the form is left with
    the spinner on and the install button disabled. *)
Theorem install_from_image_rejects h form image callbacks e :
  ExtensionList.ociImage form = Some image ->
  ExtensionList.extensionInstallFromImage h (ExtensionList.trim h image)
    = (callbacks, Throw e) ->
  exists form',
    ExtensionList.installExtensionFromImage h form = (Throw e, form') /\
    ExtensionList.logs form' = ExtensionList.dataLines callbacks /\
    ExtensionList.ociImage form' = Some (ExtensionList.trim h image) /\
    (ExtensionList.lastError callbacks = None ->
     ExtensionList.installInProgress form' = true /\
     ExtensionList.errorInstall form' = "" /\
     ExtensionList.installDisabled form' = true) /\
    (forall error, ExtensionList.lastError callbacks = Some error ->
     ExtensionList.installInProgress form' = false /\
     ExtensionList.errorInstall form' = error).
Proof.
  intros Himage Hrun. unfold ExtensionList.installExtensionFromImage.
  cbn [ExtensionList.ociImage]. rewrite Himage. cbv zeta. rewrite Hrun.
  eexists. split; [reflexivity |].
  match goal with
  | |- context [fold_left _ callbacks ?f0] =>
      destruct (fold_callbacks callbacks f0) as (Hlogs & Herr & Hprog & Himg)
  end.
  cbv zeta in Hlogs, Herr, Hprog, Himg.
  cbn [ExtensionList.logs ExtensionList.errorInstall ExtensionList.installInProgress
       ExtensionList.ociImage] in *.
  unfold ExtensionList.installDisabled. rewrite Hlogs, Herr, Hprog, Himg.
  split; [done |]. split; [done |]. split.
  - intros ->. simpl. by rewrite orb_true_r.
  - by intros error ->.
Qed.

Lemma install_from_image_rejects_witness :
  let h := {| ExtensionList.extensionInstallFromImage := fun _ =>
                ([ExtensionList.OnData "pulling"], Throw (Rejected "ipc closed"));
              ExtensionList.trim := fun s => s |} in
  exists form',
    ExtensionList.installExtensionFromImage h
      {| ExtensionList.ociImage := Some "quay.io/x/y"; ExtensionList.installInProgress := false;
         ExtensionList.errorInstall := ""; ExtensionList.logs := [] |}
      = (Throw (Rejected "ipc closed"), form') /\
    ExtensionList.installInProgress form' = true /\
    ExtensionList.installDisabled form' = true.
Proof.
  intros h.
  destruct (install_from_image_rejects h
              {| ExtensionList.ociImage := Some "quay.io/x/y";
                 ExtensionList.installInProgress := false;
                 ExtensionList.errorInstall := ""; ExtensionList.logs := [] |}
              "quay.io/x/y" _ _ eq_refl eq_refl)
    as (form' & E & _ & _ & Hstuck & _).
  destruct (Hstuck eq_refl) as (Hprog & _ & Hdis).
  exists form'. split; [exact E |]. split; [exact Hprog | exact Hdis].
Defined.

(** X16. The install button guards the flow: with no image bound the
    button is disabled, and a call made all the same throws at [trim] after
    the spinner was turned on, error and log already cleared; an enabled
    button means an image that is bound and not empty and no install in
    progress, and then the installer is what decides the outcome. *)
Theorem install_button_guard h form :
  (ExtensionList.ociImage form = None ->
   ExtensionList.installDisabled form = true /\
   ExtensionList.installExtensionFromImage h form =
     (Throw (TypeError "Cannot read properties of undefined (reading 'trim')"),
      {| ExtensionList.ociImage := None; ExtensionList.installInProgress := true;
         ExtensionList.errorInstall := ""; ExtensionList.logs := [] |})) /\
  (ExtensionList.installDisabled form = false ->
   exists image,
     ExtensionList.ociImage form = Some image /\ image <> "" /\
     ExtensionList.installInProgress form = false /\
     fst (ExtensionList.installExtensionFromImage h form)
       = snd (ExtensionList.extensionInstallFromImage h (ExtensionList.trim h image))).
Proof.
  split.
  - intros Hnone. unfold ExtensionList.installDisabled,
      ExtensionList.installExtensionFromImage.
    cbn [ExtensionList.ociImage]. by rewrite Hnone.
  - unfold ExtensionList.installDisabled, ExtensionList.installExtensionFromImage.
    cbn [ExtensionList.ociImage].
    destruct (ExtensionList.ociImage form) as [image|]; [| done].
    intros Hen. apply orb_false_iff in Hen as (Hne & Hprog).
    exists image. split; [done |]. split; [by apply String.eqb_neq |].
    split; [done |]. cbv zeta.
    destruct (ExtensionList.extensionInstallFromImage h (ExtensionList.trim h image))
      as [callbacks [[]|e]]; done.
Qed.

Lemma install_button_guard_witness :
  ExtensionList.installDisabled ExtensionList.initial = true /\
  fst (ExtensionList.installExtensionFromImage
         {| ExtensionList.extensionInstallFromImage := fun _ => ([], Ok tt);
            ExtensionList.trim := fun s => s |}
         ExtensionList.initial)
  = Throw (TypeError "Cannot read properties of undefined (reading 'trim')").
Proof.
  destruct (install_button_guard
              {| ExtensionList.extensionInstallFromImage := fun _ => ([], Ok tt);
                 ExtensionList.trim := fun s => s |}
              ExtensionList.initial) as (H & _).
  destruct (H eq_refl) as (Hdis & E). split; [exact Hdis |]. by rewrite E.
Defined.
